(** * safe-location-density: density.py and utils.py

    A shallow embedding of the two Python modules of the repository and
    the properties of their specification.

    - Python objects that are mutated in place or shared between the
      caller and an instance (pandas data frames) live in a store and are
      referred to by location; everything else is a value.
    - A Python call either returns or raises: [result].  A method that
      also mutates state is a function [S -> S * result A], so the state
      reached when an exception propagates is part of the model.
    - The libraries behind the code (h3 / h3pandas, shapely, pandas'
      float formatting and mean, uuid, requests) are parameters: the class
      [World] for density.py, an explicit network argument for utils.py. *)

From Stdlib Require Import ZArith Floats Ascii String.
From stdpp Require Import base option list strings gmap fin_maps sorting pretty.

Set Warnings "-inexact-float,-register-all".
Open Scope Z_scope.

(** ** Python values, exceptions and results *)

(** The values a caller can pass as positional or keyword arguments. *)
Inductive value :=
| VNone
| VBool (b : bool)
| VInt (n : Z)
| VStr (s : string).

Global Instance value_eq_dec : EqDecision value.
Proof. solve_decision. Defined.

(** [bool(v)]: None, False, 0 and the empty string are falsy. *)
Definition truthy (v : value) : bool :=
  match v with
  | VNone => false
  | VBool b => b
  | VInt n => negb (n =? 0)
  | VStr s => negb (bool_decide (s = ""))
  end.

(** [v in l] for a list [l] of strings: only an equal string is a member. *)
Definition py_in (v : value) (l : list string) : bool :=
  match v with
  | VStr s => bool_decide (s ∈ l)
  | _ => false
  end.

(** [v == s] for a string [s]. *)
Definition py_eq_str (v : value) (s : string) : bool :=
  match v with
  | VStr s' => bool_decide (s' = s)
  | _ => false
  end.

(** Exceptions.  [ValueError] carries its message, since the two errors
    of [_needs_fit] differ only by it; [ExternalError] is whatever a
    library call raised, with [str(err)]. *)
Inductive exn :=
| ValueError (msg : string)
| TypeError
| IndexError
| AttributeError
| UnboundLocalError (var : string)
| ExternalError (msg : string)
| DanglingReference.

Global Instance exn_eq_dec : EqDecision exn.
Proof. solve_decision. Defined.

Inductive result (A : Type) :=
| Return (a : A)
| Raise (e : exn).
Arguments Return {A} a.
Arguments Raise {A} e.

Global Instance result_ret : MRet result := fun A a => Return a.
Global Instance result_bind : MBind result := fun A B f m =>
  match m with
  | Return a => f a
  | Raise e => Raise e
  end.
Global Instance result_fmap : FMap result := fun A B f m =>
  match m with
  | Return a => Return (f a)
  | Raise e => Raise e
  end.

(** Stateful code: the state when the call ends, and how it ended. *)
Definition M (S A : Type) : Type := S -> S * result A.

Global Instance M_ret {S} : MRet (M S) := fun A a s => (s, Return a).
Global Instance M_bind {S} : MBind (M S) := fun A B f m s =>
  match m s with
  | (s', Return a) => f a s'
  | (s', Raise e) => (s', Raise e)
  end.

Definition get {S} : M S S := fun s => (s, Return s).
Definition put {S} (s : S) : M S unit := fun _ => (s, Return tt).
Definition modify {S} (f : S -> S) : M S unit := fun s => (f s, Return tt).
Definition lift {S A} (r : result A) : M S A := fun s => (s, r).
Definition raise {S A} (e : exn) : M S A := fun s => (s, Raise e).

(** A [for] loop whose body may raise: the remaining iterations are
    skipped when it does. *)
Fixpoint for_each {S A} (body : A -> M S unit) (l : list A) : M S unit :=
  match l with
  | [] => mret tt
  | x :: l' => body x ≫= fun _ => for_each body l'
  end.

(** [l[i]] on a Python list: a negative index counts from the end. *)
Definition py_index {A} (l : list A) (i : Z) : result A :=
  let n := Z.of_nat (length l) in
  if decide (0 <= i < n) then
    match l !! Z.to_nat i with Some x => Return x | None => Raise IndexError end
  else if decide (- n <= i < 0) then
    match l !! Z.to_nat (n + i) with Some x => Return x | None => Raise IndexError end
  else Raise IndexError.

(** ** density.py: module constants *)

Definition AGG : string := "agg".
Definition EXTRAP : string := "extrapolate".
Definition GEO : string := "geometry".
Definition LAT : string := "lat".
Definition LNG : string := "lng".
Definition MODES : list string := [AGG; EXTRAP].

Definition is_digit (a : ascii) : bool :=
  (48 <=? nat_of_ascii a)%nat && (nat_of_ascii a <=? 57)%nat.

(** [H3_RE.match(col)] for [H3_RE = re.compile(r"^h3_\d{2}$")], on ASCII
    labels: [$] also matches just before a final newline. *)
Definition H3_RE_match (col : string) : bool :=
  match col with
  | String "h" (String "3" (String "_" (String d1 (String d2 rest)))) =>
      is_digit d1 && is_digit d2
      && bool_decide (rest = "" ∨ rest = String "010" "")
  | _ => false
  end.

(** ** density.py: the resolution table *)

Definition _resolution_values : list (float * float) :=
  [ (4_250_546.8477000, 1_107.712591000);
    (607_220.9782429, 418.676005500);
    (86_745.8540347, 158.244655800);
    (12_392.2648621, 59.810857940);
    (1_770.3235517, 22.606379400);
    (252.9033645, 8.544408276);
    (36.1290521, 3.229482772);
    (5.1612932, 1.220629759);
    (0.7373276, 0.461354684);
    (0.1053325, 0.174375668);
    (0.0150475, 0.065907807);
    (0.0021496, 0.024910561);
    (0.0003071, 0.009415526);
    (0.0000439, 0.003559893);
    (0.0000063, 0.001348575);
    (0.0000009, 0.000509713) ]%float.

Module H3Resolution.

Record t := mk {
  resolution : Z;
  area_km2 : float;
  avg_edge_len_km : float
}.

Definition from_resolution (res : Z) : result t :=
  '(area, edge_len) ← py_index _resolution_values res;
  mret (mk res area edge_len).

End H3Resolution.

(** ** The libraries behind density.py

    [Coord] stands for the floats of the coordinate columns, [Id] for the
    values of the identifier column, [Cell] for h3 indexes and [Polygon]
    for shapely polygons. *)
Class World := {
  Coord : Type;
  Coord_eq_dec :: EqDecision Coord;
  (** the order pandas sorts group keys by *)
  coord_leb : Coord -> Coord -> bool;
  Id : Type;
  Id_eq_dec :: EqDecision Id;
  Cell : Type;
  Polygon : Type;
  (** [h3.geo_to_h3(lat, lng, resolution)]; raises on a resolution or a
      coordinate it does not accept *)
  h3_geo_to_h3 : Coord -> Coord -> Z -> result Cell;
  (** the label h3pandas gives the index column of a resolution *)
  h3_column : Z -> string;
  (** the boundary polygon of a cell *)
  h3_to_geo_boundary : Cell -> Polygon;
  (** [(obj.centroid.coords.xy[0][0], obj.centroid.coords.xy[1][0])] *)
  centroid_xy : Polygon -> Coord * Coord;
  (** how an f-string formats a float *)
  format_float : Coord -> string;
  (** the mean of a column *)
  mean : list Coord -> Coord;
  (** [uuid.uuid4().hex] *)
  uuid4_hex : string
}.

(** ** Data frames

    A row carries the columns the code reads or writes: the identifier
    column ([None] for a missing value), the two coordinate columns and
    the geometry column ([None] when the frame has none).  The three
    configured labels and "geometry" are taken to be four different
    columns, none of them a hex label.  [df_columns] lists the labels of
    all other columns, whose values pass through unread. *)
Section frames.
Context `{W : World}.

Record Row := mkRow {
  row_id : option Id;
  row_lat : Coord;
  row_lng : Coord;
  row_geo : option Polygon
}.

Record DataFrame := mkDF {
  df_columns : list string;
  df_rows : list Row
}.

Definition set_lat (r : Row) (y : Coord) : Row :=
  mkRow (row_id r) y (row_lng r) (row_geo r).
Definition set_lng (r : Row) (x : Coord) : Row :=
  mkRow (row_id r) (row_lat r) x (row_geo r).
Definition set_geo (r : Row) (g : Polygon) : Row :=
  mkRow (row_id r) (row_lat r) (row_lng r) (Some g).

(** The store of data frame objects; a location is an index into it. *)
Local Abbreviation loc := nat.
Local Abbreviation heap := (list DataFrame).

Definition read (h : heap) (l : loc) : result DataFrame :=
  match h !! l with
  | Some df => Return df
  | None => Raise DanglingReference
  end.

(** A new object: its location is one no object had before. *)
Definition alloc (df : DataFrame) : M heap loc :=
  fun h => (h ++ [df], Return (length h)).

(** The grouping key of a row: [(lat, lng)]. *)
Definition row_key (r : Row) : Coord * Coord := (row_lat r, row_lng r).

(** Lexicographic order on keys, from the order on coordinates. *)
Definition key_leb (a b : Coord * Coord) : bool :=
  coord_leb a.1 b.1 && (negb (coord_leb b.1 a.1) || coord_leb a.2 b.2).
Definition key_le : relation (Coord * Coord) := fun a b => key_leb a b = true.
Global Instance key_le_dec : RelDecision key_le.
Proof. intros a b. unfold key_le. apply _. Defined.

(** An aggregated row: the key and the distinct count. *)
Record AggRow := mkAggRow {
  agg_lat : Coord;
  agg_lng : Coord;
  agg_count : nat
}.

Definition agg_key (a : AggRow) : Coord * Coord := (agg_lat a, agg_lng a).

(** ["nunique"]: the number of distinct values, missing ones apart. *)
Definition nunique (ids : list (option Id)) : nat :=
  length (remove_dups (omap id ids)).

(** The rows of a group. *)
Definition group (k : Coord * Coord) (rows : list Row) : list Row :=
  filter (fun r => row_key r = k) rows.

(** [df.groupby([lat, lng]).agg({id: "nunique"}).reset_index()]: one
    row per key, keys in sorted order. *)
Definition groupby_nunique (rows : list Row) : list AggRow :=
  (fun k => mkAggRow k.1 k.2 (nunique (row_id <$> group k rows)))
    <$> merge_sort key_le (remove_dups (row_key <$> rows)).

(** The table [_transform_agg] returns; [agg_geometry] is the geometry
    column when there is one, aligned with the rows. *)
Record AggFrame := mkAgg {
  agg_rows : list AggRow;
  agg_geometry : option (list (option Polygon))
}.

(** What [transform_plot] hands to folium. *)
Record FoliumMap := mkMap {
  map_location : list Coord;
  geo_data : AggFrame;
  geo_crs : Z;
  geo_index : string * list nat;
  choropleth_columns : list string;
  choropleth_key_on : string;
  choropleth_legend_name : string
}.

Inductive retval :=
| RNone
| RFrame (df : AggFrame)
| RMap (m : FoliumMap).

End frames.

Abbreviation loc := nat.
Abbreviation heap := (list DataFrame).

Definition _poly_cache_key `{W : World} (lat lng : Coord) : string :=
  format_float lat +:+ "-" +:+ format_float lng.


(** ** density.py: DensityTransform *)
Module DensityTransform.
Section with_world.
Context `{W : World}.

(** The attributes of an instance.  [_input_df] refers to a data frame
    object; the polygon cache is a dictionary the instance alone holds;
    [resolution] is [None] until [fit] assigns the attribute. *)
Record t := mk {
  _input_df : loc;
  _id_col : string;
  _lat_col : string;
  _lng_col : string;
  _polygon_cache : gmap string (option Polygon);
  _is_fit : bool;
  resolution : option H3Resolution.t
}.

Definition state : Type := heap * t.

Definition set_input_df (l : loc) (self : t) : t :=
  mk l (_id_col self) (_lat_col self) (_lng_col self)
     (_polygon_cache self) (_is_fit self) (resolution self).
Definition set_polygon_cache (c : gmap string (option Polygon)) (self : t) : t :=
  mk (_input_df self) (_id_col self) (_lat_col self) (_lng_col self)
     c (_is_fit self) (resolution self).
Definition set_is_fit (b : bool) (self : t) : t :=
  mk (_input_df self) (_id_col self) (_lat_col self) (_lng_col self)
     (_polygon_cache self) b (resolution self).
Definition set_resolution (r : H3Resolution.t) (self : t) : t :=
  mk (_input_df self) (_id_col self) (_lat_col self) (_lng_col self)
     (_polygon_cache self) (_is_fit self) (Some r).

(** [DensityTransform(df=df, id_col=..., lat_col=..., lng_col=...)], with
    [df] the caller's data frame object.  [df.copy()] is a new object
    with the same contents.  [_is_fit] is the class attribute [False]. *)
Definition __init__ (df : loc) (id_col lat_col lng_col : string) : M heap t :=
  d ← (fun h => (h, read h df));
  copy ← alloc d;
  mret (mk copy id_col lat_col lng_col ∅ false None).

(** *** fit *)

(** [self._input_df], the object. *)
Definition input_df : M state DataFrame :=
  fun '(h, self) => ((h, self), read h (_input_df self)).

(** A method of the frame that works in place, or an item assignment. *)
Definition update_input_df (f : DataFrame -> DataFrame) : M state unit :=
  modify (fun '(h, self) => (alter f (_input_df self) h, self)).

(** [self._input_df = <new object>]. *)
Definition assign_input_df (df : DataFrame) : M state unit :=
  fun '(h, self) =>
    match alloc df h with
    | (h', Return l) => ((h', set_input_df l self), Return tt)
    | (h', Raise e) => ((h', self), Raise e)
    end.

Definition update_self (f : t -> t) : M state unit :=
  modify (fun '(h, self) => (h, f self)).

(** [df.h3.geo_to_h3(resolution, lat_col, lng_col).h3.h3_to_geo_boundary()
    .reset_index()]: a new frame.  Every row gets the cell of its
    coordinates and, as geometry, the boundary of that cell; the cell
    index ends up as one more column. *)
Definition h3_row (resolution : Z) (r : Row) : result Row :=
  c ← h3_geo_to_h3 (row_lat r) (row_lng r) resolution;
  mret (set_geo r (h3_to_geo_boundary c)).

Definition h3_frame (resolution : Z) (df : DataFrame) : result DataFrame :=
  rows ← mapM (h3_row resolution) (df_rows df);
  mret (mkDF (h3_column resolution :: df_columns df) rows).

(** [df.drop(labels, axis=1, inplace=True)], for labels among
    [df_columns]. *)
Definition drop (labels : list string) (df : DataFrame) : DataFrame :=
  mkDF (filter (fun c => c ∉ labels) (df_columns df)) (df_rows df).

(** [df[GEO].apply(f)]: [f] reads an attribute of each geometry. *)
Definition geo_apply {B} (f : Polygon -> B) (df : DataFrame) : result (list B) :=
  mapM (fun r => match row_geo r with
                 | Some obj => Return (f obj)
                 | None => Raise AttributeError
                 end) (df_rows df).

(** [df[lng_col] = series] and [df[lat_col] = series]. *)
Definition assign_lng (xs : list Coord) (df : DataFrame) : DataFrame :=
  mkDF (df_columns df) (zip_with set_lng (df_rows df) xs).
Definition assign_lat (ys : list Coord) (df : DataFrame) : DataFrame :=
  mkDF (df_columns df) (zip_with set_lat (df_rows df) ys).

(** The body of the loop over [iterrows()]. *)
Definition cache_row (row : Row) : M state unit :=
  let cache_key := _poly_cache_key (row_lat row) (row_lng row) in
  update_self (fun self =>
    set_polygon_cache (<[cache_key := row_geo row]> (_polygon_cache self)) self).

Definition fit (resolution : Z) : M state unit :=
  df ← input_df;
  df ← lift (h3_frame resolution df);
  assign_input_df df;;
  df ← input_df;
  let _hex_columns := filter (fun col => H3_RE_match col = true) (df_columns df) in
  (if decide (length _hex_columns = 1%nat)
   then update_input_df (drop _hex_columns)
   else mret tt);;
  df ← input_df;
  xs ← lift (geo_apply (fun obj => (centroid_xy obj).1) df);
  update_input_df (assign_lng xs);;
  df ← input_df;
  ys ← lift (geo_apply (fun obj => (centroid_xy obj).2) df);
  update_input_df (assign_lat ys);;
  df ← input_df;
  for_each cache_row (df_rows df);;
  update_self (set_is_fit true);;
  r ← lift (H3Resolution.from_resolution resolution);
  update_self (set_resolution r).

(** *** The guard of the methods that need a fitted instance *)

(** A method as the caller sees it: positional arguments after [self],
    and keyword arguments. *)
Definition method : Type :=
  heap -> t -> list value -> gmap string value -> result retval.

Definition needs_fit_error : exn :=
  ValueError "This method requires fit() to be called first".
Definition invalid_mode_error : exn :=
  ValueError "Invalid mode, must be one of: ['agg', 'extrapolate']".

Definition _needs_fit (func : method) : method :=
  fun h self args kwargs =>
    if negb (_is_fit self) then Raise needs_fit_error
    else
      let mode := default VNone (kwargs !! "mode") in
      if truthy mode && negb (py_in mode MODES) then Raise invalid_mode_error
      else func h self args kwargs.

(** Binding the arguments of a method declared [(self, *, mode=AGG)]:
    no positional argument and no keyword but [mode] is accepted. *)
Definition bind_mode (args : list value) (kwargs : gmap string value) : result value :=
  match args with
  | _ :: _ => Raise TypeError
  | [] =>
      if decide (delete "mode" kwargs = ∅)
      then Return (default (VStr AGG) (kwargs !! "mode"))
      else Raise TypeError
  end.

(** *** _transform_agg, transform, transform_plot *)

(** [self._polygon_cache.get(key)]. *)
Definition cache_get (self : t) (key : string) : option Polygon :=
  mjoin (_polygon_cache self !! key).

Definition _transform_agg (h : heap) (self : t) (restore_geo : bool) : result AggFrame :=
  df ← read h (_input_df self);
  let agg_df := groupby_nunique (df_rows df) in
  mret (mkAgg agg_df
    (if restore_geo
     then Some ((fun row => cache_get self (_poly_cache_key (agg_lat row) (agg_lng row)))
                  <$> agg_df)
     else None)).

Definition transform_func : method :=
  fun h self args kwargs =>
    mode ← bind_mode args kwargs;
    if py_eq_str mode AGG
    then RFrame <$> _transform_agg h self false
    else mret RNone.

Definition transform : method := _needs_fit transform_func.

Definition transform_plot_func : method :=
  fun h self args kwargs =>
    mode ← bind_mode args kwargs;
    if py_eq_str mode AGG
    then
      agg_df ← _transform_agg h self true;
      let random_col := uuid4_hex in
      let center := [mean (agg_lat <$> agg_rows agg_df);
                     mean (agg_lng <$> agg_rows agg_df)] in
      mret (RMap (mkMap center agg_df 4326
                    (random_col, seq 0 (length (agg_rows agg_df)))
                    [random_col; _id_col self]
                    ("feature.properties." +:+ random_col)
                    ("Unique count of: " +:+ _id_col self)))
    else mret RNone.

Definition transform_plot : method := _needs_fit transform_plot_func.

(** *** Histories of an instance *)

(** The calls a caller can make on an instance once it is built. *)
Inductive call :=
| CallFit (resolution : Z)
| CallTransform (args : list value) (kwargs : gmap string value)
| CallTransformPlot (args : list value) (kwargs : gmap string value).

(** The state after a call, whether it returned or raised (the caller
    may catch the exception and go on). *)
Definition step (c : call) (s : state) : state :=
  match c with
  | CallFit resolution => (fit resolution s).1
  | CallTransform _ _ => s
  | CallTransformPlot _ _ => s
  end.

Definition run (cs : list call) (s : state) : state :=
  foldl (fun s c => step c s) s cs.

End with_world.
End DensityTransform.


(** ** utils.py *)
Module Utils.

(** What [resp.json()] returns. *)
Inductive json :=
| JNull
| JBool (b : bool)
| JNum (n : Z)
| JStr (s : string)
| JArr (items : list json)
| JObj (fields : gmap string json).

(** A [requests.Response]: [json] is what [resp.json()] does. *)
Record Response := mkResponse {
  status_code : Z;
  text : string;
  json_of : result json
}.

Definition GBFS_FEEDS : list string :=
  [ "https://mds.bird.co/gbfs/v2/public/los-angeles/free_bike_status.json";
    "https://s3.amazonaws.com/lyft-lastmile-production-iad/lbs/lax/free_bike_status.json";
    "https://gbfs.spin.pm/api/gbfs/v2_2/los_angeles/free_bike_status" ].

(** [str(err)]. *)
Definition str_exn (e : exn) : string :=
  match e with
  | ValueError msg => msg
  | ExternalError msg => msg
  | UnboundLocalError var => "local variable '" +:+ var +:+ "' referenced before assignment"
  | _ => ""
  end.

(** [obj.get(key, dflt)]: only a dict has the method. *)
Definition dict_get (obj : json) (key : string) (dflt : json) : result json :=
  match obj with
  | JObj fields => Return (default dflt (fields !! key))
  | _ => Raise AttributeError
  end.

Definition is_obj (j : json) : bool :=
  match j with JObj _ => true | _ => false end.

(** The local variables of [free_bike_status_to_df] (a frame is the list
    of its rows; [resp] is unbound until first assigned) and what was
    printed. *)
Record locals := mkLocals {
  out_df : list json;
  resp : option Response;
  stdout : list string
}.

Definition print (line : string) : M locals unit :=
  modify (fun st => mkLocals (out_df st) (resp st) (stdout st ++ [line])).
Definition assign_resp (r : Response) : M locals unit :=
  modify (fun st => mkLocals (out_df st) (Some r) (stdout st)).
Definition assign_out_df (df : list json) : M locals unit :=
  modify (fun st => mkLocals df (resp st) (stdout st)).
Definition load_resp : M locals Response :=
  fun st => (st, match resp st with
                 | Some r => Return r
                 | None => Raise (UnboundLocalError "resp")
                 end).

Section with_network.
(** [requests.get], and [pd.DataFrame] on anything but a list of dicts. *)
Variable requests_get : string -> result Response.
Variable DataFrame_other : json -> result (list json).

(** [pd.DataFrame(data)]: a list of dicts gives one row per dict. *)
Definition pd_DataFrame (data : json) : result (list json) :=
  match data with
  | JArr items => if forallb is_obj items then Return items else DataFrame_other data
  | _ => DataFrame_other data
  end.

(** One iteration of the loop; [continue] ends the iteration. *)
Definition feed_body (feed : string) : M locals unit :=
  match requests_get feed with
  | Return r => assign_resp r
  | Raise err =>
      print ("Error on connect: " +:+ str_exn err +:+ " for feed " +:+ feed)
  end;;
  r ← load_resp;
  if decide (status_code r ≠ 200) then
    print ("Got non-200 for URL " +:+ feed +:+ ", got: " +:+ text r)
  else
    body ← lift (json_of r);
    data ← lift (dict_get body "data" (JObj ∅));
    bikes_list ← lift (dict_get data "bikes" JNull);
    match bikes_list with
    | JNull => print ("Could not extract bike list for: " +:+ feed)
    | _ =>
        _df ← lift (pd_DataFrame bikes_list);
        st ← get;
        assign_out_df (out_df st ++ _df)
    end.

Definition free_bike_status_to_df (feeds : option (list string)) : M locals (list json) :=
  let feeds := default GBFS_FEEDS feeds in
  for_each feed_body feeds;;
  st ← get;
  mret (out_df st).

End with_network.

(** The locals on entry: [out_df = pd.DataFrame()], nothing printed. *)
Definition entry : locals := mkLocals [] None [].

End Utils.


(** ** A small world to run the code in

    A square grid in place of the hexagonal one: coordinates are
    integers, the cell side halves with each resolution, a polygon is the
    list of its corners [(x, y)] and its centroid their mean. *)
Module Grid.

Definition side (resolution : Z) : Z := 2 * 2 ^ (15 - resolution).

Definition geo_to_h3 (lat lng : Z) (resolution : Z) : result (Z * Z * Z) :=
  if decide (0 <= resolution <= 15)
  then Return (resolution, lat `div` side resolution, lng `div` side resolution)
  else Raise (ExternalError "invalid resolution").

Definition column (resolution : Z) : string :=
  if decide (0 <= resolution < 10)
  then "h3_0" +:+ pretty resolution
  else "h3_" +:+ pretty resolution.

Definition boundary (c : Z * Z * Z) : list (Z * Z) :=
  let '(resolution, i, j) := c in
  let s := side resolution in
  [ (j * s, i * s); ((j + 1) * s, i * s);
    ((j + 1) * s, (i + 1) * s); (j * s, (i + 1) * s) ].

Definition average (l : list Z) : Z :=
  foldr Z.add 0 l `div` Z.of_nat (length l).

Definition centroid (p : list (Z * Z)) : Z * Z :=
  (average (fst <$> p), average (snd <$> p)).

Global Instance world : World := {|
  Coord := Z;
  coord_leb := Z.leb;
  Id := string;
  Cell := Z * Z * Z;
  Polygon := list (Z * Z);
  h3_geo_to_h3 := geo_to_h3;
  h3_column := column;
  h3_to_geo_boundary := boundary;
  centroid_xy := centroid;
  format_float := pretty;
  mean := average;
  uuid4_hex := "3f2b8c1d9e4a4f6a8b7c6d5e4f3a2b1c"
|}.

Definition record (id : string) (lat lng : Z) : Row :=
  mkRow (Some id) lat lng None.

(** Three records, ids A, A, B, in one cell at resolution 9. *)
Definition df_AAB : DataFrame :=
  mkDF [] [ record "A" 10 20; record "A" 30 40; record "B" 50 60 ].

(** Two records in two cells at resolution 9, each with its own id. *)
Definition df_two_cells : DataFrame :=
  mkDF [] [ record "A" 10 20; record "B" 300 20 ].

(** The caller's heap: the data frame at location 0. *)
Definition caller_heap (df : DataFrame) : heap := [df].

(** The instance [DensityTransform(df=df, id_col="id")] built over the
    frame at location 0: the copy is at location 1. *)
Definition built_heap (df : DataFrame) : heap := [df; df].
Definition built_self : DensityTransform.t :=
  DensityTransform.mk 1%nat "id" LAT LNG ∅ false None.

(** That instance after [fit(resolution=...)]. *)
Definition fitted (df : DataFrame) (resolution : Z) : DensityTransform.state :=
  (DensityTransform.fit resolution (built_heap df, built_self)).1.

(** The frames [fit(resolution=9)] leaves for the two data sets: every
    record on the centroid of its cell, with the cell's polygon. *)
Definition snapped (id : string) (cell : Z * Z * Z) : Row :=
  mkRow (Some id) (centroid (boundary cell)).2 (centroid (boundary cell)).1
        (Some (boundary cell)).

Definition fitted_AAB : DataFrame :=
  mkDF [] [ snapped "A" (9, 0, 0); snapped "A" (9, 0, 0); snapped "B" (9, 0, 0) ].

Definition fitted_two_cells : DataFrame :=
  mkDF [] [ snapped "A" (9, 0, 0); snapped "B" (9, 2, 0) ].

(** A network with one dead host, one failing server and one feed of
    three bikes. *)
Definition bike (id : string) : Utils.json :=
  Utils.JObj {[ "bike_id" := Utils.JStr id ]}.

Definition three_bikes : Utils.json :=
  Utils.JObj {[ "data" :=
    Utils.JObj {[ "bikes" := Utils.JArr [bike "a"; bike "b"; bike "c"] ]} ]}.

Definition network (url : string) : result Utils.Response :=
  if decide (url = "https://down.example/free_bike_status.json")
  then Raise (ExternalError "connection refused")
  else if decide (url = "https://broken.example/free_bike_status.json")
  then Return (Utils.mkResponse 500 "Internal Server Error"
                 (Raise (ExternalError "not JSON")))
  else Return (Utils.mkResponse 200 "" (Return three_bikes)).

Definition no_frame (data : Utils.json) : result (list Utils.json) :=
  Raise (ValueError "DataFrame constructor not properly called!").

End Grid.


(** ** What fit computes, as pure functions

    Used to state what the stateful code above does. *)
Section fit_functions.
Context `{W : World}.

(** A row after the two centroid assignments. *)
Definition snap (r : Row) : Row :=
  match row_geo r with
  | Some obj => mkRow (row_id r) (centroid_xy obj).2 (centroid_xy obj).1 (Some obj)
  | None => r
  end.

(** The columns left once the hex columns are dropped or kept. *)
Definition hex_dropped (df : DataFrame) : DataFrame :=
  let hex := filter (fun col => H3_RE_match col = true) (df_columns df) in
  if decide (length hex = 1%nat) then DensityTransform.drop hex df else df.

(** The frame [fit] leaves in [self._input_df]. *)
Definition fit_frame (resolution : Z) (df : DataFrame) : result DataFrame :=
  df1 ← DensityTransform.h3_frame resolution df;
  mret (mkDF (df_columns (hex_dropped df1)) (snap <$> df_rows df1)).

(** The polygon cache after the loop over the rows. *)
Definition fill_cache (rows : list Row) (cache : gmap string (option Polygon))
  : gmap string (option Polygon) :=
  foldl (fun c row => <[_poly_cache_key (row_lat row) (row_lng row) := row_geo row]> c)
        cache rows.

(** The instance once [fit] has passed the loop and set the flag. *)
Definition fit_self (l : loc) (df : DataFrame) (self : DensityTransform.t)
  : DensityTransform.t :=
  DensityTransform.set_is_fit true
    (DensityTransform.set_polygon_cache
       (fill_cache (df_rows df) (DensityTransform._polygon_cache self))
       (DensityTransform.set_input_df l self)).

(** The cell [fit] assigns to a row. *)
Definition cell_of (resolution : Z) (r : Row) : result Cell :=
  h3_geo_to_h3 (row_lat r) (row_lng r) resolution.

(** The cache key of a row. *)
Definition row_cache_key (r : Row) : string :=
  _poly_cache_key (row_lat r) (row_lng r).

End fit_functions.


(** ** An invariant of the instance *)
Section invariant.
Context `{W : World}.
Import DensityTransform.

(** Every fitted record has a polygon in the cache under its key. *)
Definition cached (s : state) : Prop :=
  exists df,
    s.1 !! _input_df s.2 = Some df /\
    (_is_fit s.2 = true ->
     Forall (fun y => exists g,
               _polygon_cache s.2 !! _poly_cache_key (row_lat y) (row_lng y)
               = Some (Some g))
            (df_rows df)).

End invariant.

(** ** What an answer contributes *)
Section answers.
Import Utils.

(** The [bikes] member of an answer with status 200, when the body is a
    JSON object whose [data] member (an empty dict if absent) is an
    object too: [JNull] if there is none. *)
Definition answer_bikes (r : Response) : option json :=
  match json_of r with
  | Return (JObj top) =>
      match default (JObj ∅) (top !! "data") with
      | JObj data => Some (default JNull (data !! "bikes"))
      | _ => None
      end
  | _ => None
  end.

(** The rows an answer adds to the result, for the answers the loop body
    handles by itself: any answer with another status than 200, and an
    answer with status 200 that has no bike list or a list of dicts. *)
Definition answer_rows (r : Response) : option (list json) :=
  if decide (status_code r ≠ 200) then Some []
  else match answer_bikes r with
       | Some JNull => Some []
       | Some (JArr items) => if forallb is_obj items then Some items else None
       | _ => None
       end.

(** The lines printed for such an answer. *)
Definition answer_lines (feed : string) (r : Response) : list string :=
  if decide (status_code r ≠ 200)
  then ["Got non-200 for URL " +:+ feed +:+ ", got: " +:+ text r]
  else match answer_bikes r with
       | Some JNull => ["Could not extract bike list for: " +:+ feed]
       | _ => []
       end.

(** The exception an answer with status 200 makes the loop body raise
    before [pd.DataFrame] is reached: [resp.json()] raises, or the body or
    its [data] member has no [get]. *)
Definition answer_error (r : Response) : option exn :=
  if decide (status_code r ≠ 200) then None
  else match json_of r with
       | Raise e => Some e
       | Return (JObj top) =>
           match default (JObj ∅) (top !! "data") with
           | JObj _ => None
           | _ => Some AttributeError
           end
       | Return _ => Some AttributeError
       end.

End answers.

(** ** More samples *)
Module Samples.

(** A frame whose caller already has a column with a hex label. *)
Definition df_hex_label : DataFrame :=
  mkDF ["h3_07"] [ Grid.record "A" 10 20; Grid.record "B" 300 20 ].

(** The records A, A, B of [Grid.df_AAB] in another order, and spread
    over two cells with a record that has no id. *)
Definition df_BAA : DataFrame :=
  mkDF [] [ Grid.record "B" 50 60; Grid.record "A" 10 20; Grid.record "A" 30 40 ].

Definition df_missing_id : DataFrame :=
  mkDF [] [ mkRow None 10 20 None; Grid.record "A" 300 20; Grid.record "A" 310 30 ].

(** What [fit(resolution=9)] leaves of it. *)
Definition fitted_missing_id : DataFrame :=
  mkDF [] [ mkRow None 64 64 (Some (Grid.boundary (9, 0, 0)));
            Grid.snapped "A" (9, 2, 0); Grid.snapped "A" (9, 2, 0) ].

(** A frame without records. *)
Definition df_empty : DataFrame := mkDF [] [].

(** A network where one host answers 200 with a page that is not JSON. *)
Definition network (url : string) : result Utils.Response :=
  if decide (url = "https://html.example/free_bike_status.json")
  then Return (Utils.mkResponse 200 "<html></html>"
                 (Raise (ExternalError "Expecting value: line 1 column 1 (char 0)")))
  else Grid.network url.

End Samples.


(** * Properties *)

(** ** The result monad and the loops *)
Section monad_lemmas.
Context {A B : Type}.

Lemma mapM_Return (f : A -> result B) (l : list A) (k : list B) :
  mapM f l = Return k <-> Forall2 (fun x y => f x = Return y) l k.
Proof.
  revert k. induction l as [|x l IH]; intros k; simpl.
  - split.
    + intros [= <-]. constructor.
    + intros Hk. inversion Hk. reflexivity.
  - split.
    + unfold mbind, result_bind at 1. destruct (f x) as [y|e] eqn:Hx; [|discriminate].
      destruct (mapM f l) as [k'|e] eqn:Hl; simpl; [|discriminate].
      intros [= <-]. constructor; [done|]. by apply IH.
    + intros Hk. inversion Hk as [|? y ? k' Hy Hk']; subst.
      apply IH in Hk'. unfold mbind, result_bind at 1. rewrite Hy. simpl.
      rewrite Hk'. reflexivity.
Qed.

Lemma mapM_total (f : A -> B) (g : A -> result B) (l : list A) :
  Forall (fun x => g x = Return (f x)) l -> mapM g l = Return (f <$> l).
Proof.
  intros H. apply mapM_Return. induction H; constructor; auto.
Qed.

Lemma bind_Return (m : result A) (f : A -> result B) (b : B) :
  m ≫= f = Return b <-> exists a, m = Return a /\ f a = Return b.
Proof.
  destruct m as [a|e]; cbv [mbind result_bind].
  - split; [eauto|]. by intros (a' & [= <-] & H).
  - split; [discriminate|]. by intros (a' & [=] & _).
Qed.

Lemma bind_Raise_l (e : exn) (f : A -> result B) : Raise e ≫= f = Raise e.
Proof. reflexivity. Qed.

Lemma bind_Return_l (a : A) (f : A -> result B) : Return a ≫= f = f a.
Proof. reflexivity. Qed.

End monad_lemmas.

(** ** What fit does to the state *)

Section fit_lemmas.
Context `{W : World}.
Import DensityTransform.

Lemma h3_row_Return r x y :
  h3_row r x = Return y <->
  exists c, cell_of r x = Return c /\ y = set_geo x (h3_to_geo_boundary c).
Proof.
  unfold h3_row, cell_of. rewrite bind_Return. split.
  - intros (c & Hc & [= <-]). eauto.
  - intros (c & Hc & ->). eauto.
Qed.

Lemma h3_frame_Return r df df1 :
  h3_frame r df = Return df1 <->
  df_columns df1 = h3_column r :: df_columns df /\
  Forall2 (fun x y => h3_row r x = Return y) (df_rows df) (df_rows df1).
Proof.
  unfold h3_frame. rewrite bind_Return. split.
  - intros (rows & Hrows%mapM_Return & [= <-]). done.
  - intros [Hc Hr]. exists (df_rows df1). split; [by apply mapM_Return|].
    destruct df1; simpl in *. by subst.
Qed.

Lemma h3_frame_has_geo r df df1 :
  h3_frame r df = Return df1 ->
  Forall (fun y => is_Some (row_geo y)) (df_rows df1).
Proof.
  intros [_ H]%h3_frame_Return.
  induction H as [|x y l k Hxy _ IH]; constructor; [|done].
  apply h3_row_Return in Hxy as (c & _ & ->). simpl. eauto.
Qed.

Lemma geo_apply_has_geo {B} (f : Polygon -> B) (d : Row -> B) cols rows :
  Forall (fun y => is_Some (row_geo y)) rows ->
  geo_apply f (mkDF cols rows)
  = Return ((fun r => from_option f (d r) (row_geo r)) <$> rows).
Proof.
  intros H. unfold geo_apply. simpl. apply mapM_total.
  eapply Forall_impl; [exact H|]. intros r [g ->]. reflexivity.
Qed.

Lemma for_each_cache_row rows h self :
  for_each cache_row rows (h, self)
  = ((h, set_polygon_cache (fill_cache rows (_polygon_cache self)) self), Return tt).
Proof.
  revert self. induction rows as [|row rows IH]; intros self; simpl.
  - destruct self; reflexivity.
  - unfold mbind, M_bind. simpl. rewrite IH. destruct self; reflexivity.
Qed.

Lemma lookup_alloc (h : heap) (df : DataFrame) : (h ++ [df]) !! length h = Some df.
Proof. rewrite lookup_app_r by lia. by rewrite Nat.sub_diag. Qed.

Lemma alter_alloc (f : DataFrame -> DataFrame) (h : heap) (df : DataFrame) :
  alter f (length h) (h ++ [df]) = h ++ [f df].
Proof.
  rewrite alter_app_r_alt by lia. by rewrite Nat.sub_diag.
Qed.

Lemma bindM {S A B} (m : M S A) (f : A -> M S B) (s : S) :
  (m ≫= f) s = match m s with
               | (s', Return a) => f a s'
               | (s', Raise e) => (s', Raise e)
               end.
Proof. reflexivity. Qed.

Lemma input_df_alloc h self l df :
  _input_df self = l -> l = length h ->
  input_df (h ++ [df], self) = ((h ++ [df], self), Return df).
Proof.
  intros Hl ->. unfold input_df, read. by rewrite Hl, lookup_alloc.
Qed.

Lemma update_input_df_alloc f h self df :
  _input_df self = length h ->
  update_input_df f (h ++ [df], self) = ((h ++ [f df], self), Return tt).
Proof.
  intros Hl. unfold update_input_df, modify. by rewrite Hl, alter_alloc.
Qed.

Lemma snap_rows (rows : list Row) :
  Forall (fun y => is_Some (row_geo y)) rows ->
  let rows1 :=
    zip_with set_lng rows
      ((fun r => from_option (fun obj => (centroid_xy obj).1) (row_lng r) (row_geo r)) <$> rows) in
  Forall (fun y => is_Some (row_geo y)) rows1 /\
  zip_with set_lat rows1
    ((fun r => from_option (fun obj => (centroid_xy obj).2) (row_lat r) (row_geo r)) <$> rows1)
  = snap <$> rows.
Proof.
  induction 1 as [|r rows [g Hg] _ [IH1 IH2]]; csimpl; [done|]. split.
  - constructor; [|done]. simpl. eauto.
  - rewrite IH2. f_equal. unfold snap, set_lat, set_lng. simpl. rewrite Hg. reflexivity.
Qed.

Lemma fit_spec r h self df :
  h !! _input_df self = Some df ->
  fit r (h, self) =
    match fit_frame r df with
    | Raise e => ((h, self), Raise e)
    | Return df' =>
        let self' := fit_self (length h) df' self in
        match H3Resolution.from_resolution r with
        | Return res => ((h ++ [df'], set_resolution res self'), Return tt)
        | Raise e => ((h ++ [df'], self'), Raise e)
        end
    end.
Proof.
  intros Hdf. unfold fit, fit_frame.
  rewrite bindM. unfold input_df at 1, read. rewrite Hdf.
  rewrite bindM. unfold lift at 1.
  destruct (h3_frame r df) as [df1|e] eqn:H1; [|reflexivity].
  pose proof (h3_frame_has_geo _ _ _ H1) as Hgeo.
  rewrite bind_Return_l.
  set (self1 := set_input_df (length h) self).
  assert (_input_df self1 = length h) as Hl by reflexivity.
  rewrite bindM. change (assign_input_df df1 (h, self)) with ((h ++ [df1], self1), Return tt).
  cbv beta iota.
  rewrite bindM, (input_df_alloc _ _ _ _ Hl eq_refl). cbv beta iota.
  rewrite bindM.
  assert (forall k : unit -> M state unit,
    match (if decide (length (filter (fun col => H3_RE_match col = true) (df_columns df1)) = 1%nat)
           then update_input_df (drop (filter (fun col => H3_RE_match col = true) (df_columns df1)))
           else mret tt) (h ++ [df1], self1)
    with
    | (s', Return a) => k a s'
    | (s', Raise e) => (s', Raise e)
    end = k tt (h ++ [hex_dropped df1], self1)) as ->.
  { intros k. unfold hex_dropped. destruct (decide _); [|reflexivity].
    by rewrite (update_input_df_alloc _ _ _ _ Hl). }
  destruct (hex_dropped df1) as [cols rows] eqn:Hhex.
  assert (rows = df_rows df1) as Hrows.
  { unfold hex_dropped in Hhex. destruct (decide _); [|by rewrite Hhex].
    unfold drop in Hhex. by injection Hhex. }
  rewrite <- Hrows in *. simpl.
  rewrite bindM, (input_df_alloc _ _ _ _ Hl eq_refl). cbv beta iota.
  rewrite bindM. unfold lift at 1.
  rewrite (geo_apply_has_geo _ row_lng) by done. cbv beta iota.
  rewrite bindM, (update_input_df_alloc _ _ _ _ Hl). cbv beta iota.
  rewrite bindM, (input_df_alloc _ _ _ _ Hl eq_refl). cbv beta iota.
  rewrite bindM. unfold lift at 1. unfold assign_lng at 1. simpl df_columns. simpl df_rows.
  destruct (snap_rows rows Hgeo) as [Hgeo1 Hsnap].
  rewrite (geo_apply_has_geo _ row_lat) by done. cbv beta iota.
  rewrite bindM, (update_input_df_alloc _ _ _ _ Hl). cbv beta iota.
  unfold assign_lat at 1. simpl df_columns. simpl df_rows. rewrite Hsnap.
  rewrite bindM, (input_df_alloc _ _ _ _ Hl eq_refl). cbv beta iota.
  rewrite bindM, for_each_cache_row. cbv beta iota. simpl df_rows.
  rewrite bindM. unfold update_self at 1, modify at 1. cbv beta iota.
  rewrite bindM. unfold lift at 1.
  destruct (H3Resolution.from_resolution r) as [res|e]; reflexivity.
Qed.
End fit_lemmas.

(** ** The guard and the modes *)
Section guard.
Context `{W : World}.
Import DensityTransform.

Lemma bind_mode_Raise args kwargs e :
  bind_mode args kwargs = Raise e -> e = TypeError.
Proof.
  unfold bind_mode. destruct args; [|congruence].
  destruct (decide _); congruence.
Qed.

Lemma _transform_agg_Raise h self restore_geo e :
  _transform_agg h self restore_geo = Raise e -> e = DanglingReference.
Proof.
  unfold _transform_agg, read. destruct (h !! _input_df self).
  - rewrite bind_Return_l. discriminate.
  - rewrite bind_Raise_l. congruence.
Qed.

Lemma transform_func_Raise h self args kwargs e :
  transform_func h self args kwargs = Raise e ->
  e = TypeError \/ e = DanglingReference.
Proof.
  unfold transform_func.
  destruct (bind_mode args kwargs) as [mode|e'] eqn:Hb.
  - rewrite bind_Return_l. destruct (py_eq_str mode AGG); [|discriminate].
    destruct (_transform_agg h self false) as [agg|e'] eqn:Ha; [discriminate|].
    intros [= <-]. right. by eapply _transform_agg_Raise.
  - intros [= <-]. left. by eapply bind_mode_Raise.
Qed.

Lemma transform_plot_func_Raise h self args kwargs e :
  transform_plot_func h self args kwargs = Raise e ->
  e = TypeError \/ e = DanglingReference.
Proof.
  unfold transform_plot_func.
  destruct (bind_mode args kwargs) as [mode|e'] eqn:Hb.
  - rewrite bind_Return_l. destruct (py_eq_str mode AGG); [|discriminate].
    destruct (_transform_agg h self true) as [agg|e'] eqn:Ha; [discriminate|].
    intros [= <-]. right. by eapply _transform_agg_Raise.
  - intros [= <-]. left. by eapply bind_mode_Raise.
Qed.


(** C3, amended. On a fitted instance a keyword [mode] that is truthy
    and not in [MODES] gets the "invalid mode" error from [transform] and
    [transform_plot]; a call with a mode in [MODES], with [mode=None] or
    with no mode does not get it. *)
Theorem truthy_mode_outside_MODES_is_rejected h self args kwargs :
  _is_fit self = true ->
  (forall m, kwargs !! "mode" = Some m -> truthy m = true -> py_in m MODES = false ->
     transform h self args kwargs = Raise invalid_mode_error /\
     transform_plot h self args kwargs = Raise invalid_mode_error) /\
  ((kwargs !! "mode" = None \/
    exists m, kwargs !! "mode" = Some m /\ (py_in m MODES = true \/ m = VNone)) ->
     transform h self args kwargs <> Raise invalid_mode_error /\
     transform_plot h self args kwargs <> Raise invalid_mode_error).
Proof.
  intros Hfit. split.
  - intros m Hm Ht Hin. unfold transform, transform_plot, _needs_fit.
    rewrite Hfit, Hm. simpl. rewrite Ht, Hin. done.
  - intros Hmode.
    assert (forall func, _needs_fit func h self args kwargs = func h self args kwargs) as Hpass.
    { intros func. unfold _needs_fit. rewrite Hfit. simpl.
      destruct Hmode as [->|(m & -> & [Hin| ->])]; simpl; [done| |done].
      by rewrite Hin, andb_false_r. }
    unfold transform, transform_plot. rewrite !Hpass. split.
    + intros [?|?]%transform_func_Raise; discriminate.
    + intros [?|?]%transform_plot_func_Raise; discriminate.
Qed.

Lemma _needs_fit_pass func h self args kwargs :
  _is_fit self = true ->
  truthy (default VNone (kwargs !! "mode"))
    && negb (py_in (default VNone (kwargs !! "mode")) MODES) = false ->
  _needs_fit func h self args kwargs = func h self args kwargs.
Proof. intros Hfit Hmode. unfold _needs_fit. by rewrite Hfit, Hmode. Qed.

Lemma bind_mode_only_mode (v : value) :
  bind_mode [] {["mode" := v]} = Return v.
Proof.
  unfold bind_mode. rewrite delete_singleton_eq, lookup_singleton_eq.
  by rewrite decide_True.
Qed.

Lemma bind_mode_no_argument : bind_mode [] ∅ = Return (VStr AGG).
Proof.
  unfold bind_mode. rewrite delete_empty, lookup_empty. by rewrite decide_True.
Qed.

(** C10. On a fitted instance [mode="extrapolate"] passes the guard
    (it is in [MODES]) and both [transform] and [transform_plot] return
    [None]. *)
Theorem extrapolate_returns_None h self :
  _is_fit self = true ->
  py_in (VStr EXTRAP) MODES = true /\
  transform h self [] {["mode" := VStr EXTRAP]} = Return RNone /\
  transform_plot h self [] {["mode" := VStr EXTRAP]} = Return RNone.
Proof.
  intros Hfit. split; [reflexivity|].
  unfold transform, transform_plot.
  rewrite !_needs_fit_pass by (by rewrite ?lookup_singleton_eq).
  unfold transform_func, transform_plot_func.
  rewrite bind_mode_only_mode. split; reflexivity.
Qed.
End guard.

(** ** Aggregation *)
Section aggregation.
Context `{W : World}.
Import DensityTransform.

Lemma agg_key_groupby (rows : list Row) :
  agg_key <$> groupby_nunique rows
  = merge_sort key_le (remove_dups (row_key <$> rows)).
Proof.
  unfold groupby_nunique. rewrite <- list_fmap_compose.
  rewrite <- (list_fmap_id (merge_sort _ _)) at 2.
  apply list_fmap_ext. intros i [lat lng] _. reflexivity.
Qed.

Lemma groupby_keys_NoDup (rows : list Row) :
  NoDup (agg_key <$> groupby_nunique rows).
Proof.
  rewrite agg_key_groupby, merge_sort_Permutation. apply NoDup_remove_dups.
Qed.

Lemma groupby_keys_elem_of (rows : list Row) (k : Coord * Coord) :
  k ∈ agg_key <$> groupby_nunique rows <-> k ∈ row_key <$> rows.
Proof.
  rewrite agg_key_groupby, merge_sort_Permutation. apply elem_of_remove_dups.
Qed.

Lemma groupby_count (rows : list Row) (a : AggRow) :
  a ∈ groupby_nunique rows ->
  agg_count a = nunique (row_id <$> group (agg_key a) rows).
Proof.
  unfold groupby_nunique. intros ([lat lng] & -> & _)%list_elem_of_fmap.
  reflexivity.
Qed.

Lemma nunique_distinct (rows : list Row) (k : Coord * Coord) :
  exists ids : list Id,
    NoDup ids /\
    (forall i, i ∈ ids <-> exists r, r ∈ rows /\ row_key r = k /\ row_id r = Some i) /\
    nunique (row_id <$> group k rows) = length ids.
Proof.
  exists (remove_dups (omap id (row_id <$> group k rows))).
  split; [apply NoDup_remove_dups|]. split; [|reflexivity].
  intros i. rewrite elem_of_remove_dups, list_elem_of_omap. split.
  - intros (o & (r & -> & Hr)%list_elem_of_fmap & Ho). simpl in Ho.
    unfold group in Hr. apply list_elem_of_filter in Hr as [Hk Hr]. eauto.
  - intros (r & Hr & Hk & Hi). exists (row_id r). split; [|done].
    apply list_elem_of_fmap. exists r. split; [done|].
    unfold group. apply list_elem_of_filter. done.
Qed.

(** C1. On a fitted instance [transform()] in aggregate mode (the
    default, or [mode=AGG]) returns a table with exactly one row for each
    distinct [(lat, lng)] pair of the fitted frame, and the count of a row
    is the number of distinct identifiers among the records of its pair:
    the length of a duplicate-free list of exactly those identifiers. *)
Theorem transform_counts_distinct_ids h self df kwargs :
  _is_fit self = true ->
  h !! _input_df self = Some df ->
  kwargs = ∅ \/ kwargs = {["mode" := VStr AGG]} ->
  exists rows,
    transform h self [] kwargs = Return (RFrame (mkAgg rows None)) /\
    NoDup (agg_key <$> rows) /\
    (forall k, k ∈ agg_key <$> rows <-> k ∈ row_key <$> df_rows df) /\
    (forall a, a ∈ rows ->
       exists ids : list Id,
         NoDup ids /\
         (forall i, i ∈ ids <->
            exists r, r ∈ df_rows df /\ row_key r = agg_key a /\ row_id r = Some i) /\
         agg_count a = length ids).
Proof.
  intros Hfit Hdf Hkw. exists (groupby_nunique (df_rows df)). split; [|split; [|split]].
  - unfold transform.
    assert (bind_mode [] kwargs = Return (VStr AGG)) as Hmode.
    { destruct Hkw as [-> | ->]; [apply bind_mode_no_argument|apply bind_mode_only_mode]. }
    rewrite _needs_fit_pass; [|done|].
    + unfold transform_func. rewrite Hmode, bind_Return_l.
      unfold _transform_agg, read. rewrite Hdf. reflexivity.
    + destruct Hkw as [-> | ->]; [by rewrite lookup_empty|by rewrite lookup_singleton_eq].
  - apply groupby_keys_NoDup.
  - apply groupby_keys_elem_of.
  - intros a Ha. rewrite (groupby_count _ _ Ha). apply nunique_distinct.
Qed.
End aggregation.

(** ** fit: centroids, the caller's frame *)
Section fit_properties.
Context `{W : World}.
Import DensityTransform.

Lemma fit_Return r h self df h' self' :
  h !! _input_df self = Some df ->
  fit r (h, self) = ((h', self'), Return tt) ->
  exists df' res,
    fit_frame r df = Return df' /\
    H3Resolution.from_resolution r = Return res /\
    h' = h ++ [df'] /\
    self' = set_resolution res (fit_self (length h) df' self).
Proof.
  intros Hdf. rewrite (fit_spec _ _ _ _ Hdf).
  destruct (fit_frame r df) as [df'|e]; [|discriminate].
  cbv zeta. destruct (H3Resolution.from_resolution r) as [res|e]; [|discriminate].
  intros [= <- <-]. eauto 10.
Qed.

Lemma fit_frame_rows r df df' :
  fit_frame r df = Return df' ->
  Forall2 (fun x y => exists c, cell_of r x = Return c /\
                        y = snap (set_geo x (h3_to_geo_boundary c)))
          (df_rows df) (df_rows df').
Proof.
  unfold fit_frame. intros (df1 & [_ Hrows]%h3_frame_Return & [= <-])%bind_Return.
  simpl. apply Forall2_fmap_r.
  eapply Forall2_impl; [exact Hrows|]. intros x y (c & Hc & ->)%h3_row_Return. eauto.
Qed.

(** C5. After [fit(resolution=r)] has returned, every record of the
    fitted frame has as [lng] the x coordinate and as [lat] the y
    coordinate of the centroid of the boundary polygon of the cell its
    original coordinates were assigned; so two records assigned the same
    cell carry the same [(lat, lng)] pair. *)
Theorem fit_replaces_coordinates_by_centroid r h self df h' self' :
  h !! _input_df self = Some df ->
  fit r (h, self) = ((h', self'), Return tt) ->
  exists df',
    h' !! _input_df self' = Some df' /\
    Forall2 (fun x y => exists c,
               cell_of r x = Return c /\
               row_geo y = Some (h3_to_geo_boundary c) /\
               row_lng y = (centroid_xy (h3_to_geo_boundary c)).1 /\
               row_lat y = (centroid_xy (h3_to_geo_boundary c)).2 /\
               row_id y = row_id x)
            (df_rows df) (df_rows df') /\
    (forall i j x1 x2 y1 y2,
       df_rows df !! i = Some x1 -> df_rows df !! j = Some x2 ->
       df_rows df' !! i = Some y1 -> df_rows df' !! j = Some y2 ->
       cell_of r x1 = cell_of r x2 ->
       row_lat y1 = row_lat y2 /\ row_lng y1 = row_lng y2).
Proof.
  intros Hdf Hfit.
  destruct (fit_Return _ _ _ _ _ _ Hdf Hfit) as (df' & res & Hframe & _ & -> & ->).
  exists df'. split; [apply lookup_alloc|].
  pose proof (fit_frame_rows _ _ _ Hframe) as Hrows.
  assert (Forall2 (fun x y => exists c,
               cell_of r x = Return c /\
               row_geo y = Some (h3_to_geo_boundary c) /\
               row_lng y = (centroid_xy (h3_to_geo_boundary c)).1 /\
               row_lat y = (centroid_xy (h3_to_geo_boundary c)).2 /\
               row_id y = row_id x)
            (df_rows df) (df_rows df')) as Hall.
  { eapply Forall2_impl; [exact Hrows|]. intros x y (c & Hc & ->).
    exists c. done. }
  split; [exact Hall|].
  intros i j x1 x2 y1 y2 Hx1 Hx2 Hy1 Hy2 Hcell.
  destruct (Forall2_lookup_lr _ _ _ _ _ _ Hall Hx1 Hy1) as (c1 & Hc1 & _ & Hlng1 & Hlat1 & _).
  destruct (Forall2_lookup_lr _ _ _ _ _ _ Hall Hx2 Hy2) as (c2 & Hc2 & _ & Hlng2 & Hlat2 & _).
  assert (c1 = c2) as -> by congruence.
  split; congruence.
Qed.

Lemma fit_heap_extends r h self :
  exists ext, (fit r (h, self)).1.1 = h ++ ext.
Proof.
  destruct (h !! _input_df self) as [df|] eqn:Hdf.
  - rewrite (fit_spec _ _ _ _ Hdf).
    destruct (fit_frame r df) as [df'|e]; [|by exists []; rewrite app_nil_r].
    cbv zeta. destruct (H3Resolution.from_resolution r); by exists [df'].
  - exists []. rewrite app_nil_r. unfold fit. rewrite bindM.
    unfold input_df, read. by rewrite Hdf.
Qed.

Lemma run_heap_extends calls h self :
  exists ext, (run calls (h, self)).1 = h ++ ext.
Proof.
  revert h self. induction calls as [|c calls IH]; intros h self.
  - exists []. by rewrite app_nil_r.
  - unfold run. simpl. fold (run calls (step c (h, self))).
    destruct c as [r| |]; simpl; [|apply IH..].
    destruct (fit_heap_extends r h self) as [ext1 H1].
    destruct (fit r (h, self)) as [[h1 self1] out]. simpl in *. subst h1.
    destruct (IH (h ++ ext1) self1) as [ext2 H2]. exists (ext1 ++ ext2).
    by rewrite H2, app_assoc.
Qed.

(** C7. Constructing an instance over the caller's data frame object
    stores a copy (a different object with the same contents) and leaves
    the caller's object as it was; so does every sequence of calls made on
    the instance afterwards, [fit] included, whether they return or
    raise. *)
Theorem caller_dataset_is_never_modified h df d id_col lat_col lng_col :
  h !! df = Some d ->
  exists h1 self,
    __init__ df id_col lat_col lng_col h = (h1, Return self) /\
    h1 !! df = Some d /\
    _input_df self <> df /\
    h1 !! _input_df self = Some d /\
    forall calls, (run calls (h1, self)).1 !! df = Some d.
Proof.
  intros Hd. exists (h ++ [d]), (mk (length h) id_col lat_col lng_col ∅ false None).
  pose proof (lookup_lt_Some _ _ _ Hd) as Hlt.
  split; [|split; [|split; [|split]]].
  - unfold __init__. rewrite bindM. unfold read. rewrite Hd. reflexivity.
  - by apply lookup_app_l_Some.
  - simpl. lia.
  - apply lookup_alloc.
  - intros calls. destruct (run_heap_extends calls (h ++ [d]) (mk (length h) id_col lat_col lng_col ∅ false None)) as [ext ->].
    apply lookup_app_l_Some. by apply lookup_app_l_Some.
Qed.
End fit_properties.

(** ** fit: the polygon cache *)
Section remove_dups_lemmas.
Context {A B C : Type} `{EqDecision B, EqDecision C}.

Lemma remove_dups_fmap_length (f : A -> B) (g : A -> C) (l : list A) :
  (forall x y, x ∈ l -> y ∈ l -> (f x = f y <-> g x = g y)) ->
  length (remove_dups (f <$> l)) = length (remove_dups (g <$> l)).
Proof.
  induction l as [|x l IH]; intros Hfg; csimpl; [done|].
  assert (f x ∈ f <$> l <-> g x ∈ g <$> l) as Hin.
  { rewrite !list_elem_of_fmap. split; intros (y & Hy & Hl); exists y; split; try done.
    - apply Hfg; [left|by right|done].
    - apply Hfg; [left|by right|done]. }
  assert (length (remove_dups (f <$> l)) = length (remove_dups (g <$> l))) as IH'.
  { apply IH. intros y z Hy Hz. apply Hfg; by right. }
  destruct (decide_rel elem_of (f x) (f <$> l)) as [Hf|Hf];
    destruct (decide_rel elem_of (g x) (g <$> l)) as [Hg|Hg]; simpl; try tauto.
  by rewrite IH'.
Qed.

End remove_dups_lemmas.

Section cache.
Context `{W : World}.
Import DensityTransform.

Lemma fill_cache_cons y rows cache :
  fill_cache (y :: rows) cache
  = fill_cache rows (<[row_cache_key y := row_geo y]> cache).
Proof. reflexivity. Qed.

Lemma fill_cache_dom rows (cache : gmap string (option Polygon)) :
  dom (fill_cache rows cache) = list_to_set (row_cache_key <$> rows) ∪ dom cache.
Proof.
  revert cache. induction rows as [|y rows IH]; intros cache.
  - change (dom cache = ∅ ∪ dom cache). by rewrite union_empty_l_L.
  - rewrite fill_cache_cons, IH, dom_insert_L, fmap_cons, list_to_set_cons.
    apply set_eq. intros k. rewrite !elem_of_union. tauto.
Qed.

Lemma fill_cache_lookup_other rows (cache : gmap string (option Polygon)) k :
  k ∉ row_cache_key <$> rows -> fill_cache rows cache !! k = cache !! k.
Proof.
  revert cache. induction rows as [|y rows IH]; intros cache Hk; [done|].
  rewrite fmap_cons, not_elem_of_cons in Hk. destruct Hk as [Hk1 Hk2].
  rewrite fill_cache_cons, IH by done. by rewrite lookup_insert_ne.
Qed.

Lemma fill_cache_lookup_row rows (cache : gmap string (option Polygon)) y :
  y ∈ rows ->
  exists y', y' ∈ rows /\ row_cache_key y' = row_cache_key y /\
             fill_cache rows cache !! row_cache_key y = Some (row_geo y').
Proof.
  revert cache y. induction rows as [|y0 rows IH]; intros cache y Hy.
  - by apply elem_of_nil in Hy.
  - rewrite fill_cache_cons.
    destruct (decide (row_cache_key y ∈ row_cache_key <$> rows)) as [Hin|Hin].
    + apply list_elem_of_fmap in Hin as (y1 & Hk & Hy1).
      destruct (IH (<[row_cache_key y0 := row_geo y0]> cache) y1 Hy1)
        as (y' & Hy' & Hk' & Hl).
      exists y'. split; [by right|]. rewrite Hk. split; [congruence|done].
    + apply elem_of_cons in Hy as [->|Hy].
      * exists y0. split; [left|]. split; [done|].
        rewrite fill_cache_lookup_other by done. by rewrite lookup_insert_eq.
      * exfalso. apply Hin. apply list_elem_of_fmap. eauto.
Qed.

Lemma fill_cache_size rows :
  size (fill_cache rows ∅) = length (remove_dups (row_cache_key <$> rows)).
Proof.
  rewrite <- size_dom, fill_cache_dom, dom_empty_L, union_empty_r_L.
  rewrite <- (size_list_to_set (C:=gset string) (remove_dups _))
    by apply NoDup_remove_dups.
  f_equal. apply set_eq. intros k.
  by rewrite !elem_of_list_to_set, elem_of_remove_dups.
Qed.

Lemma snap_has_geo x g : row_geo (snap (set_geo x g)) = Some g.
Proof. reflexivity. Qed.

Lemma fit_frame_has_geo r df df' :
  fit_frame r df = Return df' ->
  Forall (fun y => is_Some (row_geo y)) (df_rows df').
Proof.
  intros Hrows%fit_frame_rows.
  induction Hrows as [|x y l k (c & _ & ->) _ IH]; constructor; [|done].
  rewrite snap_has_geo. eauto.
Qed.

End cache.

(** ** The resolution table *)

Lemma py_index_in_range {A} (l : list A) (i : Z) :
  0 <= i < Z.of_nat (length l) ->
  exists x, l !! Z.to_nat i = Some x /\ py_index l i = Return x.
Proof.
  intros Hi. unfold py_index. rewrite decide_True by done.
  destruct (l !! Z.to_nat i) as [x|] eqn:Hx; [eauto|].
  apply lookup_ge_None in Hx. lia.
Qed.

Lemma py_index_negative {A} (l : list A) (i : Z) :
  - Z.of_nat (length l) <= i < 0 ->
  py_index l i = py_index l (Z.of_nat (length l) + i).
Proof.
  intros Hi. unfold py_index.
  rewrite decide_False, decide_True by lia.
  rewrite (decide_True (P := 0 <= _ < _)) by lia. reflexivity.
Qed.

Lemma py_index_out_of_range {A} (l : list A) (i : Z) :
  i < - Z.of_nat (length l) \/ Z.of_nat (length l) <= i ->
  py_index l i = Raise IndexError.
Proof.
  intros Hi. unfold py_index. by rewrite !decide_False by lia.
Qed.

Lemma from_resolution_succeeds_iff (res : Z) :
  (exists e, H3Resolution.from_resolution res = Return e) <-> -16 <= res <= 15.
Proof.
  unfold H3Resolution.from_resolution. split.
  - intros [e He]. destruct (decide (-16 <= res <= 15)) as [|Hout]; [done|].
    rewrite py_index_out_of_range in He by (simpl; lia). discriminate.
  - intros Hres. destruct (decide (0 <= res)) as [Hpos|Hneg].
    + destruct (py_index_in_range _resolution_values res) as ([a e] & _ & ->);
        [simpl; lia|]. eauto.
    + rewrite py_index_negative by (simpl; lia).
      destruct (py_index_in_range _resolution_values (Z.of_nat (length _resolution_values) + res))
        as ([a e] & _ & ->); [simpl; lia|]. eauto.
Qed.

(** C4. For every resolution [r] in 0..15, [from_resolution(r)] returns
    an entry whose [resolution] is [r] and whose area and edge length are
    the floats written by the documented decimal constants of level
    [r]. *)
Theorem from_resolution_exact_constants (r : Z) :
  0 <= r <= 15 ->
  exists e,
    H3Resolution.from_resolution r = Return e /\
    H3Resolution.resolution e = r /\
    (r, H3Resolution.area_km2 e, H3Resolution.avg_edge_len_km e) ∈
      [ (0, 4250546.8477%float, 1107.712591%float);
        (1, 607220.9782429%float, 418.6760055%float);
        (2, 86745.8540347%float, 158.2446558%float);
        (3, 12392.2648621%float, 59.81085794%float);
        (4, 1770.3235517%float, 22.6063794%float);
        (5, 252.9033645%float, 8.544408276%float);
        (6, 36.1290521%float, 3.229482772%float);
        (7, 5.1612932%float, 1.220629759%float);
        (8, 0.7373276%float, 0.461354684%float);
        (9, 0.1053325%float, 0.174375668%float);
        (10, 0.0150475%float, 0.065907807%float);
        (11, 0.0021496%float, 0.024910561%float);
        (12, 0.0003071%float, 0.009415526%float);
        (13, 0.0000439%float, 0.003559893%float);
        (14, 0.0000063%float, 0.001348575%float);
        (15, 0.0000009%float, 0.000509713%float) ].
Proof.
  intros Hr.
  assert (r ∈ seqZ 0 16) as Hin by (apply elem_of_seqZ; lia).
  revert Hin. generalize r. apply Forall_forall. clear.
  repeat (constructor; [eexists; split; [reflexivity|split; [reflexivity|]];
          simpl; repeat (first [left | right]) |]).
  constructor.
Qed.

(** C9, at the failing input. [from_resolution(-1)] does not fail: the
    index wraps around and the call returns the constants of resolution
    15 in an entry whose [resolution] is -1. *)
Theorem from_resolution_accepts_negative_index :
  ~ (0 <= -1 <= 15) /\
  H3Resolution.from_resolution (-1)
  = Return (H3Resolution.mk (-1) 0.0000009%float 0.000509713%float) /\
  H3Resolution.from_resolution 15
  = Return (H3Resolution.mk 15 0.0000009%float 0.000509713%float).
Proof. split; [lia|]. split; reflexivity. Qed.

(** ** utils.py: free_bike_status_to_df *)

Section feeds.
Import Utils.
Variable requests_get : string -> result Response.
Variable DataFrame_other : json -> result (list json).

(** C8, at the failing inputs. When [requests.get] raises for the first
    feed, the handler prints and the loop body goes on to read [resp],
    which is unbound: the call raises [UnboundLocalError] to the caller
    instead of skipping the feed. *)
Theorem connect_error_on_first_feed_raises feed feeds err :
  requests_get feed = Raise err ->
  free_bike_status_to_df requests_get DataFrame_other (Some (feed :: feeds)) entry
  = (mkLocals [] None
       ["Error on connect: " +:+ str_exn err +:+ " for feed " +:+ feed],
     Raise (UnboundLocalError "resp")).
Proof.
  intros Hget. unfold free_bike_status_to_df. simpl default.
  rewrite bindM. simpl for_each. rewrite bindM.
  unfold feed_body. rewrite bindM, Hget. reflexivity.
Qed.
End feeds.

(** The scenario of the specification: a feed answering HTTP 500 and a
    feed with three bikes give three rows and no exception. *)
Lemma one_failing_server_one_good_feed :
  exists st rows,
    Utils.free_bike_status_to_df Grid.network Grid.no_frame
      (Some ["https://broken.example/free_bike_status.json";
             "https://ok.example/free_bike_status.json"]) Utils.entry
    = (st, Return rows) /\ length rows = 3%nat.
Proof. eexists _, _. split; [vm_compute; reflexivity|reflexivity]. Qed.

(** A connection error after a good feed does not raise, but the stale
    [resp] is processed again: the three bikes are there twice. *)
Lemma connect_error_after_good_feed_repeats_it :
  exists st rows,
    Utils.free_bike_status_to_df Grid.network Grid.no_frame
      (Some ["https://ok.example/free_bike_status.json";
             "https://down.example/free_bike_status.json"]) Utils.entry
    = (st, Return rows) /\ length rows = 6%nat.
Proof. eexists _, _. split; [vm_compute; reflexivity|reflexivity]. Qed.

Lemma connect_error_on_first_feed_raises_witness :
  Utils.free_bike_status_to_df Grid.network Grid.no_frame
    (Some ["https://down.example/free_bike_status.json";
           "https://ok.example/free_bike_status.json"]) Utils.entry
  = (Utils.mkLocals [] None
       ["Error on connect: connection refused for feed https://down.example/free_bike_status.json"],
     Raise (UnboundLocalError "resp")).
Proof.
  apply (connect_error_on_first_feed_raises Grid.network Grid.no_frame
           "https://down.example/free_bike_status.json"
           ["https://ok.example/free_bike_status.json"]
           (ExternalError "connection refused")).
  reflexivity.
Defined.

(** ** Further facts about the guard and fit *)

Section further.
Import DensityTransform.


(** A new instance is not fit, has an empty cache and no resolution. *)
Lemma init_is_unfit `{W : World} df id_col lat_col lng_col h h1 self :
  __init__ df id_col lat_col lng_col h = (h1, Return self) ->
  _is_fit self = false /\ _polygon_cache self = ∅ /\ resolution self = None.
Proof.
  unfold __init__. rewrite bindM. destruct (read h df); [|discriminate].
  rewrite bindM. simpl. by intros [= <- <-].
Qed.

(** A [fit] that raises while cells are assigned leaves the heap and the
    instance as they were: the flag is still unset. *)
Lemma fit_raising_in_grid_stage_changes_nothing `{W : World} r h self df e :
  h !! _input_df self = Some df ->
  DensityTransform.h3_frame r df = Raise e ->
  fit r (h, self) = ((h, self), Raise e).
Proof.
  intros Hdf He. rewrite (fit_spec _ _ _ _ Hdf). unfold fit_frame. by rewrite He.
Qed.

(** A [fit] that raises at the resolution lookup, its last fallible
    statement, has already replaced the frame, filled the cache and set
    the flag. *)
Lemma fit_raising_at_the_lookup_has_set_the_flag `{W : World} r h self df df' e :
  h !! _input_df self = Some df ->
  fit_frame r df = Return df' ->
  H3Resolution.from_resolution r = Raise e ->
  fit r (h, self) = ((h ++ [df'], fit_self (length h) df' self), Raise e) /\
  _is_fit (fit_self (length h) df' self) = true.
Proof.
  intros Hdf Hframe He. rewrite (fit_spec _ _ _ _ Hdf), Hframe. cbv zeta.
  by rewrite He.
Qed.

(** The aggregate mode is the string [AGG = "agg"]: the word
    "aggregate" itself is not in [MODES]. *)
Lemma literal_aggregate_is_rejected `{W : World} h self :
  _is_fit self = true ->
  transform h self [] {["mode" := VStr "aggregate"]} = Raise invalid_mode_error.
Proof.
  intros Hfit. unfold transform, _needs_fit.
  by rewrite Hfit, lookup_singleton_eq.
Qed.

(** ** The code on the sample world *)

Lemma built_is_init (df : DataFrame) :
  __init__ 0%nat "id" LAT LNG (Grid.caller_heap df)
  = (Grid.built_heap df, Return Grid.built_self).
Proof. reflexivity. Qed.

Lemma fit_returns_the_fitted_state (df : DataFrame) (r : Z) :
  (fit r (Grid.built_heap df, Grid.built_self)).2 = Return tt ->
  fit r (Grid.built_heap df, Grid.built_self)
  = (((Grid.fitted df r).1, (Grid.fitted df r).2), Return tt).
Proof.
  unfold Grid.fitted.
  destruct (fit r (Grid.built_heap df, Grid.built_self)) as [[h self] out].
  simpl. by intros ->.
Qed.

Lemma fit_AAB_returns :
  fit 9 (Grid.built_heap Grid.df_AAB, Grid.built_self)
  = (((Grid.fitted Grid.df_AAB 9).1, (Grid.fitted Grid.df_AAB 9).2), Return tt).
Proof. apply fit_returns_the_fitted_state. vm_compute. reflexivity. Qed.

Lemma fit_two_cells_returns :
  fit 9 (Grid.built_heap Grid.df_two_cells, Grid.built_self)
  = (((Grid.fitted Grid.df_two_cells 9).1, (Grid.fitted Grid.df_two_cells 9).2), Return tt).
Proof. apply fit_returns_the_fitted_state. vm_compute. reflexivity. Qed.

(** The scenarios of the specification. *)
Lemma scenario_ids_A_A_B_one_cell :
  transform (Grid.fitted Grid.df_AAB 9).1 (Grid.fitted Grid.df_AAB 9).2 [] ∅
  = Return (RFrame (mkAgg [mkAggRow 64 64 2] None)).
Proof. vm_compute. reflexivity. Qed.

Lemma scenario_two_cells :
  transform (Grid.fitted Grid.df_two_cells 9).1 (Grid.fitted Grid.df_two_cells 9).2 [] ∅
  = Return (RFrame (mkAgg [mkAggRow 64 64 1; mkAggRow 320 64 1] None)).
Proof. vm_compute. reflexivity. Qed.

(** C1 on the records A, A, B of one cell: one row, its count the
    length of a duplicate-free list (the scenario above gives 2). *)
Lemma transform_counts_distinct_ids_witness :
  exists rows,
    transform (Grid.fitted Grid.df_AAB 9).1 (Grid.fitted Grid.df_AAB 9).2 [] ∅
    = Return (RFrame (mkAgg rows None)) /\
    length rows = 1%nat /\
    (forall a, a ∈ rows ->
       exists ids : list string, NoDup ids /\ agg_count a = length ids).
Proof.
  destruct (transform_counts_distinct_ids
              (Grid.fitted Grid.df_AAB 9).1 (Grid.fitted Grid.df_AAB 9).2
              Grid.fitted_AAB ∅)
    as (rows & Hrows & _ & _ & Hcount).
  - vm_compute. reflexivity.
  - vm_compute. reflexivity.
  - left. reflexivity.
  - exists rows. split; [exact Hrows|]. split.
    + rewrite scenario_ids_A_A_B_one_cell in Hrows. by injection Hrows as <-.
    + intros a Ha. destruct (Hcount a Ha) as (ids & Hnd & _ & Hlen). eauto.
Defined.


Lemma fitted_AAB_is_fit : _is_fit (Grid.fitted Grid.df_AAB 9).2 = true.
Proof. vm_compute. reflexivity. Qed.

(** C3 as stated fails: on a fitted instance the empty string and
    [None] are not in [MODES], yet [transform] and [transform_plot] called
    with either as [mode] raise nothing and return [None]. *)
Lemma falsy_mode_is_not_rejected :
  _is_fit (Grid.fitted Grid.df_AAB 9).2 = true /\
  py_in (VStr "") MODES = false /\
  py_in VNone MODES = false /\
  transform (Grid.fitted Grid.df_AAB 9).1 (Grid.fitted Grid.df_AAB 9).2
    [] {["mode" := VStr ""]} = Return RNone /\
  transform_plot (Grid.fitted Grid.df_AAB 9).1 (Grid.fitted Grid.df_AAB 9).2
    [] {["mode" := VStr ""]} = Return RNone /\
  transform (Grid.fitted Grid.df_AAB 9).1 (Grid.fitted Grid.df_AAB 9).2
    [] {["mode" := VNone]} = Return RNone /\
  transform_plot (Grid.fitted Grid.df_AAB 9).1 (Grid.fitted Grid.df_AAB 9).2
    [] {["mode" := VNone]} = Return RNone.
Proof. repeat split; vm_compute; reflexivity. Qed.

(** C3, amended, on a fitted instance. *)
Lemma truthy_mode_outside_MODES_is_rejected_witness :
  transform (Grid.fitted Grid.df_AAB 9).1 (Grid.fitted Grid.df_AAB 9).2
    [] {["mode" := VStr "bogus"]} = Raise invalid_mode_error /\
  transform (Grid.fitted Grid.df_AAB 9).1 (Grid.fitted Grid.df_AAB 9).2
    [] {["mode" := VStr AGG]} <> Raise invalid_mode_error.
Proof.
  split.
  - destruct (truthy_mode_outside_MODES_is_rejected
                (Grid.fitted Grid.df_AAB 9).1 (Grid.fitted Grid.df_AAB 9).2
                [] {["mode" := VStr "bogus"]} fitted_AAB_is_fit) as [Hbad _].
    apply (Hbad (VStr "bogus")); vm_compute; reflexivity.
  - destruct (truthy_mode_outside_MODES_is_rejected
                (Grid.fitted Grid.df_AAB 9).1 (Grid.fitted Grid.df_AAB 9).2
                [] {["mode" := VStr AGG]} fitted_AAB_is_fit) as [_ Hgood].
    apply Hgood. right. exists (VStr AGG).
    split; [vm_compute; reflexivity|left; reflexivity].
Defined.

(** C10 on a fitted instance. *)
Lemma extrapolate_returns_None_witness :
  transform (Grid.fitted Grid.df_AAB 9).1 (Grid.fitted Grid.df_AAB 9).2
    [] {["mode" := VStr EXTRAP]} = Return RNone /\
  transform_plot (Grid.fitted Grid.df_AAB 9).1 (Grid.fitted Grid.df_AAB 9).2
    [] {["mode" := VStr EXTRAP]} = Return RNone.
Proof.
  apply (extrapolate_returns_None
           (Grid.fitted Grid.df_AAB 9).1 (Grid.fitted Grid.df_AAB 9).2
           fitted_AAB_is_fit).
Defined.

Lemma fitted_AAB_frame :
  (Grid.fitted Grid.df_AAB 9).1 !! _input_df (Grid.fitted Grid.df_AAB 9).2
  = Some Grid.fitted_AAB.
Proof. vm_compute. reflexivity. Qed.

Lemma fitted_two_cells_frame :
  (Grid.fitted Grid.df_two_cells 9).1 !! _input_df (Grid.fitted Grid.df_two_cells 9).2
  = Some Grid.fitted_two_cells.
Proof. vm_compute. reflexivity. Qed.

(** C5 on the records A, A, B: all three end on the centroid (64, 64). *)
Lemma fit_replaces_coordinates_by_centroid_witness :
  exists df',
    (Grid.fitted Grid.df_AAB 9).1 !! _input_df (Grid.fitted Grid.df_AAB 9).2 = Some df' /\
    df' = Grid.fitted_AAB /\
    (forall i j y1 y2,
       df_rows df' !! i = Some y1 -> df_rows df' !! j = Some y2 ->
       (i < 3)%nat -> (j < 3)%nat ->
       row_lat y1 = row_lat y2 /\ row_lng y1 = row_lng y2).
Proof.
  destruct (fit_replaces_coordinates_by_centroid 9
              (Grid.built_heap Grid.df_AAB) Grid.built_self Grid.df_AAB
              (Grid.fitted Grid.df_AAB 9).1 (Grid.fitted Grid.df_AAB 9).2)
    as (df' & Hdf' & Hrows & Hsame).
  - reflexivity.
  - exact fit_AAB_returns.
  - exists df'. split; [exact Hdf'|]. split.
    + rewrite fitted_AAB_frame in Hdf'. by injection Hdf'.
    + intros i j y1 y2 Hy1 Hy2 Hi Hj.
      destruct (lookup_lt_is_Some_2 (df_rows Grid.df_AAB) i Hi) as [x1 Hx1].
      destruct (lookup_lt_is_Some_2 (df_rows Grid.df_AAB) j Hj) as [x2 Hx2].
      apply (Hsame i j x1 x2 y1 y2 Hx1 Hx2 Hy1 Hy2).
      destruct i as [|[|[|i]]]; [| | |simpl in Hi; lia];
        destruct j as [|[|[|j]]]; try (simpl in Hj; lia);
        injection Hx1 as <-; injection Hx2 as <-; reflexivity.
Defined.

(** C7 on a history with a [fit] that returns and one that raises. *)
Lemma caller_dataset_is_never_modified_witness :
  exists h1 self,
    __init__ 0%nat "id" LAT LNG (Grid.caller_heap Grid.df_AAB) = (h1, Return self) /\
    (run [CallTransform [] ∅; CallFit 9; CallFit 16; CallTransformPlot [] ∅] (h1, self)).1
      !! 0%nat = Some Grid.df_AAB.
Proof.
  destruct (caller_dataset_is_never_modified
              (Grid.caller_heap Grid.df_AAB) 0%nat Grid.df_AAB "id" LAT LNG eq_refl)
    as (h1 & self & Hinit & _ & _ & _ & Hrun).
  exists h1, self. split; [exact Hinit|apply Hrun].
Defined.

(** On the two fitted records the cache key tells the pairs apart. *)
Lemma two_cells_keys_tell_pairs_apart (y1 y2 : Row) :
  y1 ∈ df_rows Grid.fitted_two_cells -> y2 ∈ df_rows Grid.fitted_two_cells ->
  _poly_cache_key (row_lat y1) (row_lng y1) = _poly_cache_key (row_lat y2) (row_lng y2) ->
  row_key y1 = row_key y2.
Proof.
  intros Hy1 Hy2.
  apply list_elem_of_lookup in Hy1 as [i Hy1].
  apply list_elem_of_lookup in Hy2 as [j Hy2].
  destruct i as [|[|i]]; [| |discriminate Hy1];
    (destruct j as [|[|j]]; [| |discriminate Hy2]);
    injection Hy1 as <-; injection Hy2 as <-; intros Hkey.
  - exact eq_refl.
  - exfalso. vm_compute in Hkey. discriminate Hkey.
  - exfalso. vm_compute in Hkey. discriminate Hkey.
  - exact eq_refl.
Qed.


End further.

(** C4 at resolution 9. *)
Lemma from_resolution_exact_constants_witness :
  exists e,
    H3Resolution.from_resolution 9 = Return e /\
    H3Resolution.resolution e = 9 /\
    H3Resolution.area_km2 e = 0.1053325%float /\
    H3Resolution.avg_edge_len_km e = 0.174375668%float.
Proof.
  destruct (from_resolution_exact_constants 9) as (e & He & Hr & _); [lia|].
  exists e. split; [exact He|]. split; [exact Hr|].
  injection He as <-. split; reflexivity.
Defined.

(** * Further properties *)

(** ** More on the resolution table *)

(** X1. [from_resolution] raises [IndexError] for every index below -16
    or above 15, and for an index [r] in -16..-1 returns the constants of
    resolution [r + 16] in an entry whose [resolution] is [r]. *)
Theorem from_resolution_wraps_or_raises (r : Z) :
  (r < -16 \/ 15 < r -> H3Resolution.from_resolution r = Raise IndexError) /\
  (-16 <= r < 0 ->
   exists area edge_len,
     H3Resolution.from_resolution (r + 16)
     = Return (H3Resolution.mk (r + 16) area edge_len) /\
     H3Resolution.from_resolution r = Return (H3Resolution.mk r area edge_len)).
Proof.
  unfold H3Resolution.from_resolution. split.
  - intros Hr. rewrite py_index_out_of_range by (simpl; lia). reflexivity.
  - intros Hr. rewrite (py_index_negative _ r) by (simpl; lia).
    change (Z.of_nat (length _resolution_values)) with 16.
    rewrite (Z.add_comm 16 r).
    destruct (py_index_in_range _resolution_values (r + 16)) as ([a e] & _ & ->);
      [simpl; lia|].
    exists a, e. split; reflexivity.
Qed.

Section more_fit.
Context `{W : World}.
Import DensityTransform.

Lemma mapM_Raise_elem {A B} (f : A -> result B) (l : list A) (x : A) (e : exn) :
  x ∈ l -> f x = Raise e -> exists e', mapM f l = Raise e'.
Proof.
  induction l as [|y l IH]; intros Hx He; [by apply elem_of_nil in Hx|].
  simpl. destruct (f y) as [b|e1] eqn:Hy; [|by exists e1].
  rewrite bind_Return_l.
  apply elem_of_cons in Hx as [->|Hx]; [congruence|].
  destruct (IH Hx He) as [e' ->]. by exists e'.
Qed.

Lemma mapM_Forall_Return {A B} (f : A -> result B) (l : list A) :
  Forall (fun x => exists y, f x = Return y) l -> exists k, mapM f l = Return k.
Proof.
  induction 1 as [|x l [y Hy] _ [k Hk]]; [by exists []|].
  exists (y :: k). simpl. rewrite Hy, bind_Return_l, Hk. reflexivity.
Qed.

(** X2. When [h3.geo_to_h3] raises for some record, [fit] raises and
    leaves the heap and the instance exactly as they were. *)
Theorem fit_changes_nothing_when_a_cell_lookup_raises r h self df row e :
  h !! _input_df self = Some df ->
  row ∈ df_rows df ->
  h3_geo_to_h3 (row_lat row) (row_lng row) r = Raise e ->
  exists e', fit r (h, self) = ((h, self), Raise e').
Proof.
  intros Hdf Hrow He.
  assert (exists e', h3_frame r df = Raise e') as [e' Hframe].
  { unfold h3_frame.
    destruct (mapM_Raise_elem (h3_row r) (df_rows df) row e Hrow) as [e' ->].
    - unfold h3_row. by rewrite He.
    - by exists e'. }
  exists e'. exact (fit_raising_in_grid_stage_changes_nothing r h self df e' Hdf Hframe).
Qed.

Lemma fit_frame_Return_of_cells r df :
  Forall (fun row => exists c, h3_geo_to_h3 (row_lat row) (row_lng row) r = Return c)
         (df_rows df) ->
  exists df', fit_frame r df = Return df'.
Proof.
  intros Hcells. unfold fit_frame, h3_frame.
  destruct (mapM_Forall_Return (h3_row r) (df_rows df)) as [rows ->].
  - eapply Forall_impl; [exact Hcells|]. intros row [c Hc].
    unfold h3_row. rewrite Hc. eauto.
  - rewrite !bind_Return_l. eauto.
Qed.

(** X3. When every record gets a cell but the resolution is outside
    -16..15, [fit] raises [IndexError] at its last statement: the instance
    is already marked fit, its [resolution] attribute is as before, and
    [transform()] on it returns a table instead of the "requires fit"
    error. *)
Theorem fit_raising_at_the_lookup_leaves_a_fit_instance r h self df :
  h !! _input_df self = Some df ->
  Forall (fun row => exists c, h3_geo_to_h3 (row_lat row) (row_lng row) r = Return c)
         (df_rows df) ->
  r < -16 \/ 15 < r ->
  exists h' self' rows,
    fit r (h, self) = ((h', self'), Raise IndexError) /\
    _is_fit self' = true /\
    resolution self' = resolution self /\
    transform h' self' [] ∅ = Return (RFrame (mkAgg rows None)).
Proof.
  intros Hdf Hcells Hr.
  destruct (fit_frame_Return_of_cells r df Hcells) as [df' Hframe].
  destruct (from_resolution_succeeds_iff r) as [Hsome _].
  destruct (H3Resolution.from_resolution r) as [res|e] eqn:Hres.
  { destruct Hsome; [eauto|lia]. }
  assert (e = IndexError) as ->.
  { unfold H3Resolution.from_resolution in Hres.
    rewrite py_index_out_of_range in Hres by (simpl; lia). by injection Hres. }
  destruct (fit_raising_at_the_lookup_has_set_the_flag r h self df df' IndexError
              Hdf Hframe Hres) as [Hfit Hflag].
  eexists _, _, _. split; [exact Hfit|]. split; [exact Hflag|]. split; [reflexivity|].
  unfold transform. rewrite _needs_fit_pass by done.
  unfold transform_func. rewrite bind_mode_no_argument, bind_Return_l.
  change (py_eq_str (VStr AGG) AGG) with true. cbv iota.
  unfold _transform_agg, read.
  change (_input_df (fit_self (length h) df' self)) with (length h).
  rewrite lookup_alloc. reflexivity.
Qed.

End more_fit.

Section histories.
Context `{W : World}.
Import DensityTransform.

(** What one call of [fit] can do to the state. *)
Lemma fit_outcomes r h self :
  (fit r (h, self)).1 = (h, self) \/
  exists df df',
    h !! _input_df self = Some df /\ fit_frame r df = Return df' /\
    ((fit r (h, self)).1 = (h ++ [df'], fit_self (length h) df' self) \/
     exists res, (fit r (h, self)).1
                 = (h ++ [df'], set_resolution res (fit_self (length h) df' self))).
Proof.
  destruct (h !! _input_df self) as [df|] eqn:Hdf.
  - rewrite (fit_spec _ _ _ _ Hdf).
    destruct (fit_frame r df) as [df'|e] eqn:Hframe; [|by left].
    right. exists df, df'. split; [done|]. split; [done|]. cbv zeta.
    destruct (H3Resolution.from_resolution r) as [res|e]; [right; by exists res|by left].
  - left. unfold fit. rewrite bindM. unfold input_df, read. by rewrite Hdf.
Qed.

Lemma run_cons c calls (s : state) : run (c :: calls) s = run calls (step c s).
Proof. reflexivity. Qed.

(** An invariant of [step] is an invariant of every history. *)
Lemma run_invariant (P : state -> Prop) :
  (forall c s, P s -> P (step c s)) ->
  forall calls s, P s -> P (run calls s).
Proof.
  intros Hstep calls. induction calls as [|c calls IH]; intros s Hs; [done|].
  rewrite run_cons. apply IH, Hstep, Hs.
Qed.

(** X4. No sequence of calls removes a key from the polygon cache: a
    second [fit] adds to the entries of the first. *)
Theorem polygon_cache_only_grows calls h self :
  dom (_polygon_cache self) ⊆ dom (_polygon_cache (run calls (h, self)).2).
Proof.
  apply (run_invariant
           (fun s => dom (_polygon_cache self) ⊆ dom (_polygon_cache s.2))); [|done].
  intros [r| |] [h1 self1] Hs; simpl in *; [|done..].
  destruct (fit_outcomes r h1 self1) as [->|(df & df' & _ & _ & [->|[res ->]])];
    [done| |]; simpl; rewrite fill_cache_dom; set_solver.
Qed.

(** X5. No sequence of calls changes the three configured column names,
    and once the instance is fit it stays fit, also through a [fit] that
    raises. *)
Theorem configuration_and_fit_flag_are_kept calls h self :
  _id_col (run calls (h, self)).2 = _id_col self /\
  _lat_col (run calls (h, self)).2 = _lat_col self /\
  _lng_col (run calls (h, self)).2 = _lng_col self /\
  (_is_fit self = true -> _is_fit (run calls (h, self)).2 = true).
Proof.
  apply (run_invariant
           (fun s => _id_col s.2 = _id_col self /\
                     _lat_col s.2 = _lat_col self /\
                     _lng_col s.2 = _lng_col self /\
                     (_is_fit self = true -> _is_fit s.2 = true))); [|done].
  intros [r| |] [h1 self1] Hs; simpl in *; [|done..].
  destruct (fit_outcomes r h1 self1) as [->|(df & df' & _ & _ & [->|[res ->]])];
    simpl; tauto.
Qed.

Lemma fit_self_cached (h : heap) df' self :
  Forall (fun y => is_Some (row_geo y)) (df_rows df') ->
  Forall (fun y => exists g,
            _polygon_cache (fit_self (length h) df' self)
              !! _poly_cache_key (row_lat y) (row_lng y) = Some (Some g))
         (df_rows df').
Proof.
  intros Hgeo. apply Forall_forall. intros y Hy. simpl.
  destruct (fill_cache_lookup_row (df_rows df') (_polygon_cache self) y Hy)
    as (y' & Hy' & _ & Hl).
  destruct (proj1 (Forall_forall _ _) Hgeo y' Hy') as [g Hg].
  exists g. unfold row_cache_key in Hl. by rewrite Hl, Hg.
Qed.

Lemma step_cached c s : cached s -> cached (step c s).
Proof.
  destruct s as [h self]. destruct c as [r| |]; [|done..].
  intros (df & Hdf & Hrows). simpl.
  destruct (fit_outcomes r h self) as [->|(df0 & df' & _ & Hframe & [->|[res ->]])];
    [by exists df| |];
    exists df'; (split; [apply lookup_alloc|]); intros _;
    apply fit_self_cached, (fit_frame_has_geo r df0), Hframe.
Qed.

Lemma init_cached df id_col lat_col lng_col h d :
  h !! df = Some d ->
  exists h1 self,
    __init__ df id_col lat_col lng_col h = (h1, Return self) /\ cached (h1, self).
Proof.
  intros Hd. exists (h ++ [d]), (mk (length h) id_col lat_col lng_col ∅ false None).
  split.
  - unfold __init__. rewrite bindM. unfold read. by rewrite Hd.
  - exists d. split; [apply lookup_alloc|]. discriminate.
Qed.


End histories.

Section list_facts.
Context {A : Type} `{EqDecision A}.

Lemma remove_dups_length_le (l : list A) : (length (remove_dups l) <= length l)%nat.
Proof.
  apply submseteq_length, NoDup_submseteq; [apply NoDup_remove_dups|].
  intros x. by rewrite elem_of_remove_dups.
Qed.

Lemma remove_dups_nil_inv (l : list A) : remove_dups l = [] -> l = [].
Proof.
  destruct l as [|x l]; [done|]. intros Hnil.
  assert (x ∈ remove_dups (x :: l)) as Hx by (apply elem_of_remove_dups; left).
  rewrite Hnil in Hx. by apply elem_of_nil in Hx.
Qed.

End list_facts.

Section aggregation_bounds.
Context `{W : World}.
Import DensityTransform.

Lemma groupby_length (rows : list Row) :
  length (groupby_nunique rows) = length (remove_dups (row_key <$> rows)).
Proof.
  unfold groupby_nunique. rewrite length_fmap.
  apply Permutation_length, merge_sort_Permutation.
Qed.

Lemma omap_id_nil_iff {B} (l : list (option B)) :
  omap id l = [] <-> Forall (fun o => o = None) l.
Proof.
  induction l as [|[b|] l IH]; simpl.
  - split; [constructor|done].
  - split; [done|]. intros H. inversion H. discriminate.
  - rewrite IH. split; [by constructor|]. intros H. by inversion H.
Qed.

Lemma omap_id_length_le {B} (l : list (option B)) :
  (length (omap id l) <= length l)%nat.
Proof. induction l as [|[b|] l IH]; csimpl; lia. Qed.


(** X8. Every row of [_transform_agg] stands for at least one record;
    its count is at most the number of records of its pair, and is 0
    exactly when all of them have a missing id. *)
Theorem count_is_bounded_by_the_records_of_the_cell h self df restore_geo agg a :
  h !! _input_df self = Some df ->
  _transform_agg h self restore_geo = Return agg ->
  a ∈ agg_rows agg ->
  (0 < length (group (agg_key a) (df_rows df)))%nat /\
  (agg_count a <= length (group (agg_key a) (df_rows df)))%nat /\
  (agg_count a = 0%nat <->
   forall r, r ∈ df_rows df -> row_key r = agg_key a -> row_id r = None).
Proof.
  intros Hdf Hagg Ha. unfold _transform_agg, read in Hagg.
  rewrite Hdf, bind_Return_l in Hagg. injection Hagg as <-. simpl in Ha.
  rewrite (groupby_count _ _ Ha). split; [|split].
  - assert (agg_key a ∈ row_key <$> df_rows df) as Hk.
    { apply groupby_keys_elem_of, list_elem_of_fmap. eauto. }
    apply list_elem_of_fmap in Hk as (y & Hk & Hy).
    assert (y ∈ group (agg_key a) (df_rows df)) as Hin.
    { unfold group. apply list_elem_of_filter. done. }
    destruct (group (agg_key a) (df_rows df)); [by apply elem_of_nil in Hin|simpl; lia].
  - unfold nunique. etrans; [apply remove_dups_length_le|].
    etrans; [apply omap_id_length_le|]. by rewrite length_fmap.
  - unfold nunique. split.
    + intros Hz r Hr Hk.
      apply nil_length_inv, remove_dups_nil_inv, omap_id_nil_iff in Hz.
      rewrite Forall_fmap, Forall_forall in Hz. apply Hz.
      unfold group. apply list_elem_of_filter. done.
    + intros Hnone.
      assert (omap id (row_id <$> group (agg_key a) (df_rows df)) = []) as ->; [|done].
      apply omap_id_nil_iff. rewrite Forall_fmap. apply Forall_forall.
      intros r [Hk Hr]%list_elem_of_filter. simpl. by apply Hnone.
Qed.

End aggregation_bounds.

Section calls.
Context `{W : World}.
Import DensityTransform.

Lemma bind_mode_TypeError args (kwargs : gmap string value) :
  args <> [] \/ (exists k, k <> "mode" /\ is_Some (kwargs !! k)) ->
  bind_mode args kwargs = Raise TypeError.
Proof.
  intros [Hargs|(k & Hk & [v Hv])]; unfold bind_mode.
  - by destruct args.
  - destruct args; [|done]. rewrite decide_False; [done|].
    intros Hempty. apply (f_equal (fun m => m !! k)) in Hempty.
    rewrite lookup_delete_ne, lookup_empty in Hempty by done. congruence.
Qed.

(** X9. On a fitted instance, when the keyword [mode] is absent, falsy
    or in [MODES], a positional argument or a keyword other than [mode]
    makes [transform] and [transform_plot] raise [TypeError]: a mode
    passed positionally is never validated. *)
Theorem unexpected_arguments_raise_TypeError h self args kwargs :
  _is_fit self = true ->
  truthy (default VNone (kwargs !! "mode"))
    && negb (py_in (default VNone (kwargs !! "mode")) MODES) = false ->
  args <> [] \/ (exists k, k <> "mode" /\ is_Some (kwargs !! k)) ->
  transform h self args kwargs = Raise TypeError /\
  transform_plot h self args kwargs = Raise TypeError.
Proof.
  intros Hfit Hmode Hbad. unfold transform, transform_plot.
  rewrite !_needs_fit_pass by done.
  unfold transform_func, transform_plot_func.
  rewrite (bind_mode_TypeError _ _ Hbad). split; reflexivity.
Qed.


End calls.

Section columns_and_cache.
Context `{W : World}.
Import DensityTransform.

Lemma fit_frame_columns r df df' :
  fit_frame r df = Return df' ->
  df_columns df' = df_columns (hex_dropped (mkDF (h3_column r :: df_columns df) [])).
Proof.
  unfold fit_frame. intros (df1 & [Hcols _]%h3_frame_Return & [= <-])%bind_Return.
  destruct df1 as [cols rows]. simpl in Hcols. subst cols.
  simpl. unfold hex_dropped. simpl. destruct (decide _); reflexivity.
Qed.

Lemma filter_none {A} (P : A -> Prop) `{forall x, Decision (P x)} (l : list A) :
  Forall (fun x => ~ P x) l -> filter P l = [].
Proof.
  induction 1 as [|x l Hx _ IH]; [done|].
  rewrite filter_cons, decide_False by done. exact IH.
Qed.

Lemma filter_all {A} (P : A -> Prop) `{forall x, Decision (P x)} (l : list A) :
  Forall P l -> filter P l = l.
Proof.
  induction 1 as [|x l Hx _ IH]; [done|].
  rewrite filter_cons, decide_True by done. by rewrite IH.
Qed.


Lemma fill_cache_app l1 l2 (cache : gmap string (option Polygon)) :
  fill_cache (l1 ++ l2) cache = fill_cache l2 (fill_cache l1 cache).
Proof. unfold fill_cache. apply foldl_app. Qed.

(** X12. After a [fit] that returns, the cache holds under the key of a
    fitted record the geometry of that record, provided no later record
    has the same key: the last record of a key wins. *)
Theorem polygon_cache_keeps_the_last_record_of_a_key
    r h self df h' self' df' before y after :
  h !! _input_df self = Some df ->
  fit r (h, self) = ((h', self'), Return tt) ->
  h' !! _input_df self' = Some df' ->
  df_rows df' = before ++ y :: after ->
  Forall (fun z => _poly_cache_key (row_lat z) (row_lng z)
                   <> _poly_cache_key (row_lat y) (row_lng y)) after ->
  _polygon_cache self' !! _poly_cache_key (row_lat y) (row_lng y) = Some (row_geo y).
Proof.
  intros Hdf Hfit Hdf' Hrows Hafter.
  destruct (fit_Return _ _ _ _ _ _ Hdf Hfit) as (df1 & res & Hframe & _ & -> & ->).
  change (_input_df (set_resolution res (fit_self (length h) df1 self)))
    with (length h) in Hdf'.
  rewrite lookup_alloc in Hdf'. injection Hdf' as ->.
  simpl. rewrite Hrows.
  rewrite fill_cache_app, fill_cache_cons, fill_cache_lookup_other.
  - apply lookup_insert_eq.
  - intros (z & Hk & Hz)%list_elem_of_fmap.
    by apply (proj1 (Forall_forall _ _) Hafter z Hz).
Qed.

End columns_and_cache.

Section order.
Context `{W : World}.
Import DensityTransform.

(** The order on coordinates is a total order. *)
Hypothesis leb_total : forall a b : Coord, coord_leb a b = true \/ coord_leb b a = true.
Hypothesis leb_trans : forall a b c : Coord,
  coord_leb a b = true -> coord_leb b c = true -> coord_leb a c = true.
Hypothesis leb_antisym : forall a b : Coord,
  coord_leb a b = true -> coord_leb b a = true -> a = b.

Lemma key_le_total : Total key_le.
Proof.
  intros [a1 a2] [b1 b2]. unfold key_le, key_leb. simpl.
  destruct (coord_leb a1 b1) eqn:Hab, (coord_leb b1 a1) eqn:Hba; simpl; auto.
  destruct (leb_total a1 b1); congruence.
Qed.

Lemma key_le_trans : Transitive key_le.
Proof.
  intros [a1 a2] [b1 b2] [c1 c2]. unfold key_le, key_leb. simpl.
  rewrite !andb_true_iff, !orb_true_iff, !negb_true_iff.
  intros [Hab Hab'] [Hbc Hbc']. split; [by eapply leb_trans|].
  destruct (coord_leb c1 a1) eqn:Hca; [|by left]. right.
  assert (coord_leb b1 a1 = true) as Hba by (by eapply leb_trans).
  assert (coord_leb c1 b1 = true) as Hcb by (by eapply leb_trans).
  destruct Hab' as [?|Hab']; [congruence|].
  destruct Hbc' as [?|Hbc']; [congruence|].
  by eapply leb_trans.
Qed.

Lemma key_le_antisym : AntiSymm (=) key_le.
Proof.
  intros [a1 a2] [b1 b2]. unfold key_le, key_leb. simpl.
  rewrite !andb_true_iff, !orb_true_iff, !negb_true_iff.
  intros [Hab Hab'] [Hba Hba'].
  destruct Hab' as [?|Hab']; [congruence|].
  destruct Hba' as [?|Hba']; [congruence|].
  f_equal; by apply leb_antisym.
Qed.

Lemma groupby_nunique_Permutation (rows rows' : list Row) :
  rows ≡ₚ rows' -> groupby_nunique rows = groupby_nunique rows'.
Proof.
  intros Hperm. unfold groupby_nunique.
  assert (merge_sort key_le (remove_dups (row_key <$> rows))
          = merge_sort key_le (remove_dups (row_key <$> rows'))) as ->.
  { apply (StronglySorted_unique key_le (AntiSymm0 := key_le_antisym)).
    - apply (StronglySorted_merge_sort key_le (Transitive0 := key_le_trans)
               (Total0 := key_le_total)).
    - apply (StronglySorted_merge_sort key_le (Transitive0 := key_le_trans)
               (Total0 := key_le_total)).
    - rewrite !merge_sort_Permutation.
      apply NoDup_Permutation; [apply NoDup_remove_dups..|].
      intros k. rewrite !elem_of_remove_dups. by rewrite Hperm. }
  apply list_fmap_ext. intros _ k _. f_equal. unfold nunique.
  apply Permutation_length, NoDup_Permutation; [apply NoDup_remove_dups..|].
  intros i. rewrite !elem_of_remove_dups. unfold group. by rewrite Hperm.
Qed.

(** X13. When the order on coordinates is a total order, two frames
    with the same records in different orders give the same rows. *)
Theorem aggregation_ignores_the_order_of_the_records
    h self df h' self' df' restore_geo :
  h !! _input_df self = Some df ->
  h' !! _input_df self' = Some df' ->
  df_rows df ≡ₚ df_rows df' ->
  exists agg agg',
    _transform_agg h self restore_geo = Return agg /\
    _transform_agg h' self' restore_geo = Return agg' /\
    agg_rows agg = agg_rows agg'.
Proof.
  intros Hdf Hdf' Hperm. unfold _transform_agg, read.
  rewrite Hdf, Hdf', !bind_Return_l. eexists _, _.
  split; [reflexivity|]. split; [reflexivity|]. simpl.
  by apply groupby_nunique_Permutation.
Qed.

(** X14. When the order on coordinates is total and transitive, the
    rows of [_transform_agg] are in ascending order of [(lat, lng)]. *)
Theorem aggregation_rows_are_sorted_by_key h self df restore_geo agg :
  h !! _input_df self = Some df ->
  _transform_agg h self restore_geo = Return agg ->
  StronglySorted key_le (agg_key <$> agg_rows agg).
Proof.
  intros Hdf Hagg. unfold _transform_agg, read in Hagg.
  rewrite Hdf, bind_Return_l in Hagg. injection Hagg as <-. simpl.
  rewrite agg_key_groupby.
  apply (StronglySorted_merge_sort key_le (Transitive0 := key_le_trans)
           (Total0 := key_le_total)).
Qed.

End order.

Section feed_properties.
Import Utils.
Variable requests_get : string -> result Response.
Variable DataFrame_other : json -> result (list json).

Lemma feed_body_answer feed r rows st :
  requests_get feed = Return r ->
  answer_rows r = Some rows ->
  feed_body requests_get DataFrame_other feed st
  = (mkLocals (out_df st ++ rows) (Some r) (stdout st ++ answer_lines feed r), Return tt).
Proof.
  intros Hget Hrows. unfold feed_body. rewrite bindM, Hget.
  unfold assign_resp at 1, modify at 1. cbv beta iota.
  rewrite bindM. unfold load_resp at 1. simpl resp. cbv beta iota.
  unfold answer_rows in Hrows. unfold answer_lines.
  destruct (decide (status_code r ≠ 200)) as [Hs|Hs].
  { injection Hrows as <-. unfold print, modify. simpl. by rewrite app_nil_r. }
  unfold answer_bikes in *.
  rewrite bindM. unfold lift at 1.
  destruct (json_of r) as [[| | | | |top]|e]; try discriminate Hrows.
  cbv beta iota. rewrite bindM. unfold lift at 1, dict_get at 1.
  destruct (default (JObj ∅) (top !! "data")) as [| | | | |data]; try discriminate Hrows.
  cbv beta iota. rewrite bindM. unfold lift at 1, dict_get at 1. cbv beta iota.
  destruct (default JNull (data !! "bikes")) as [| | | |items|]; try discriminate Hrows.
  - injection Hrows as <-. unfold print, modify. simpl. by rewrite app_nil_r.
  - destruct (forallb is_obj items) eqn:Hitems; [|discriminate Hrows].
    injection Hrows as <-.
    rewrite bindM. unfold lift at 1, pd_DataFrame. rewrite Hitems. cbv beta iota.
    rewrite bindM. unfold get at 1. cbv beta iota.
    unfold assign_out_df, modify. simpl. by rewrite app_nil_r.
Qed.

Lemma feed_body_error feed r e st :
  requests_get feed = Return r ->
  answer_error r = Some e ->
  feed_body requests_get DataFrame_other feed st
  = (mkLocals (out_df st) (Some r) (stdout st), Raise e).
Proof.
  intros Hget He. unfold feed_body. rewrite bindM, Hget.
  unfold assign_resp at 1, modify at 1. cbv beta iota.
  rewrite bindM. unfold load_resp at 1. simpl resp. cbv beta iota.
  unfold answer_error in He.
  destruct (decide (status_code r ≠ 200)) as [Hs|Hs]; [discriminate He|].
  rewrite bindM. unfold lift at 1.
  destruct (json_of r) as [j|e'].
  - cbv beta iota. rewrite bindM. unfold lift at 1, dict_get at 1.
    destruct j as [| | | | |top]; try (injection He as <-; reflexivity).
    cbv beta iota. rewrite bindM. unfold lift at 1, dict_get at 1.
    destruct (default (JObj ∅) (top !! "data")) as [| | | | |data];
      try (injection He as <-; reflexivity).
    discriminate He.
  - injection He as <-. reflexivity.
Qed.

Lemma for_each_app {S A} (body : A -> M S unit) (l1 l2 : list A) (st : S) :
  for_each body (l1 ++ l2) st
  = match for_each body l1 st with
    | (s', Return _) => for_each body l2 s'
    | (s', Raise e) => (s', Raise e)
    end.
Proof.
  revert st. induction l1 as [|x l1 IH]; intros st; [done|].
  simpl for_each. rewrite !bindM.
  destruct (body x st) as [s1 [[]|e1]]; [apply IH|done].
Qed.

(** The loop over feeds that all answer and whose answers the body
    handles by itself. *)
Lemma for_each_answers feeds rowss st :
  Forall2 (fun feed rows => exists r,
             requests_get feed = Return r /\ answer_rows r = Some rows)
          feeds rowss ->
  exists st',
    for_each (feed_body requests_get DataFrame_other) feeds st = (st', Return tt) /\
    out_df st' = out_df st ++ concat rowss /\
    (feeds = [] -> st' = st) /\
    (forall feed r, last feeds = Some feed -> requests_get feed = Return r ->
                    resp st' = Some r) /\
    exists liness,
      stdout st' = stdout st ++ concat liness /\
      Forall2 (fun feed lines => exists r,
                 requests_get feed = Return r /\ lines = answer_lines feed r)
              feeds liness.
Proof.
  intros Hall. revert st.
  induction Hall as [|feed rows feeds rowss (r & Hget & Hrows) _ IH]; intros st.
  - exists st. simpl. rewrite !app_nil_r. repeat split; try done.
    exists []. simpl. by rewrite app_nil_r.
  - simpl for_each. rewrite bindM, (feed_body_answer feed r rows st Hget Hrows).
    cbv beta iota.
    destruct (IH (mkLocals (out_df st ++ rows) (Some r)
                    (stdout st ++ answer_lines feed r)))
      as (st' & Hrun & Hout & Hnil & Hlast & liness & Hlines & Hall').
    exists st'. split; [exact Hrun|]. split.
    { rewrite Hout. simpl. by rewrite app_assoc. }
    split; [discriminate|]. split.
    { intros feed' r' Hl Hget'. destruct feeds as [|f fs].
      - simpl in Hl. injection Hl as <-. rewrite (Hnil eq_refl). simpl. congruence.
      - eapply Hlast; [|exact Hget']. exact Hl. }
    exists (answer_lines feed r :: liness). split.
    { rewrite Hlines. simpl. by rewrite app_assoc. }
    constructor; [eauto|exact Hall'].
Qed.

(** X15. When every feed answers, each with a status other than 200, or
    with status 200 and a JSON object whose [data] object has no bike list
    or a list of dicts, the call does not raise: it returns the bike lists
    in feed order and prints exactly the lines of the skipped feeds. *)
Theorem answered_feeds_are_concatenated_in_order feeds rowss :
  Forall2 (fun feed rows => exists r,
             requests_get feed = Return r /\ answer_rows r = Some rows)
          feeds rowss ->
  exists st liness,
    free_bike_status_to_df requests_get DataFrame_other (Some feeds) entry
    = (st, Return (concat rowss)) /\
    stdout st = concat liness /\
    Forall2 (fun feed lines => exists r,
               requests_get feed = Return r /\ lines = answer_lines feed r)
            feeds liness.
Proof.
  intros Hall.
  destruct (for_each_answers feeds rowss entry Hall)
    as (st' & Hrun & Hout & _ & _ & liness & Hlines & Hall').
  exists st', liness. split; [|split; [exact Hlines|exact Hall']].
  unfold free_bike_status_to_df. simpl default.
  rewrite bindM, Hrun. cbv beta iota. rewrite bindM. unfold get at 1. cbv beta iota.
  cbv [mret M_ret]. by rewrite Hout.
Qed.

(** X16. A feed answering 200 with a body that is not JSON, or whose
    JSON or [data] member is not an object, makes the whole call raise,
    after any number of good feeds: their bikes are not returned. *)
Theorem a_body_that_is_not_a_JSON_object_aborts_the_batch
    feeds rowss feed rest r e :
  Forall2 (fun feed rows => exists r,
             requests_get feed = Return r /\ answer_rows r = Some rows)
          feeds rowss ->
  requests_get feed = Return r ->
  answer_error r = Some e ->
  (free_bike_status_to_df requests_get DataFrame_other
     (Some (feeds ++ feed :: rest)) entry).2 = Raise e.
Proof.
  intros Hall Hget He.
  destruct (for_each_answers feeds rowss entry Hall) as (st' & Hrun & _).
  unfold free_bike_status_to_df. simpl default. rewrite bindM.
  rewrite for_each_app, Hrun. simpl for_each. rewrite bindM.
  rewrite (feed_body_error feed r e st' Hget He). reflexivity.
Qed.

End feed_properties.

Section stale_response.
Import Utils.
Variable requests_get : string -> result Response.
Variable DataFrame_other : json -> result (list json).

(** After a connection error the body goes on with the response of the
    previous iteration. *)
Lemma feed_body_connect_error feed err r st :
  requests_get feed = Raise err ->
  resp st = Some r ->
  feed_body requests_get DataFrame_other feed st
  = feed_body (fun _ => Return r) DataFrame_other feed
      (mkLocals (out_df st) (resp st)
         (stdout st ++ ["Error on connect: " +:+ str_exn err +:+ " for feed " +:+ feed])).
Proof.
  intros Hget Hresp. unfold feed_body. rewrite !bindM, Hget.
  unfold print at 1, assign_resp at 1, modify. cbv beta iota. simpl.
  by rewrite Hresp.
Qed.

(** X17. When [requests.get] raises for a feed that follows an answered
    one, the previous response is processed again: the rows of the
    previous feed are in the result twice. *)
Theorem connect_error_repeats_the_previous_answer
    feeds rowss prev r rows bad err :
  Forall2 (fun feed rows => exists r,
             requests_get feed = Return r /\ answer_rows r = Some rows)
          feeds rowss ->
  requests_get prev = Return r ->
  answer_rows r = Some rows ->
  requests_get bad = Raise err ->
  (free_bike_status_to_df requests_get DataFrame_other
     (Some (feeds ++ [prev; bad])) entry).2
  = Return (concat rowss ++ rows ++ rows).
Proof.
  intros Hall Hprev Hrows Hbad.
  destruct (for_each_answers requests_get DataFrame_other feeds rowss entry Hall)
    as (st' & Hrun & Hout & _).
  unfold free_bike_status_to_df. simpl default. rewrite bindM.
  rewrite for_each_app, Hrun. simpl for_each. rewrite bindM.
  rewrite (feed_body_answer requests_get DataFrame_other prev r rows st' Hprev Hrows).
  cbv beta iota. rewrite bindM.
  rewrite (feed_body_connect_error bad err r
             (mkLocals (out_df st' ++ rows) (Some r) (stdout st' ++ answer_lines prev r))
             Hbad eq_refl).
  rewrite (feed_body_answer (fun _ => Return r) DataFrame_other bad r rows _ eq_refl Hrows).
  cbv beta iota. cbv [mret M_ret]. cbv beta iota.
  rewrite bindM. unfold get at 1. cbv beta iota. simpl.
  by rewrite Hout, <- !app_assoc.
Qed.

End stale_response.

(** ** The further properties on the sample world *)

Section more_witnesses.
Import DensityTransform.

(** X2 on the records A, A, B at resolution 16, which the grid rejects. *)
Lemma fit_changes_nothing_when_a_cell_lookup_raises_witness :
  exists e,
    fit 16 (Grid.built_heap Grid.df_AAB, Grid.built_self)
    = ((Grid.built_heap Grid.df_AAB, Grid.built_self), Raise e).
Proof.
  apply (fit_changes_nothing_when_a_cell_lookup_raises 16
           (Grid.built_heap Grid.df_AAB) Grid.built_self Grid.df_AAB
           (Grid.record "A" 10 20) (ExternalError "invalid resolution")).
  - reflexivity.
  - left.
  - reflexivity.
Defined.

(** X3 on a frame without records at resolution 16. *)
Lemma fit_raising_at_the_lookup_leaves_a_fit_instance_witness :
  exists h' self' rows,
    fit 16 (Grid.built_heap Samples.df_empty, Grid.built_self)
    = ((h', self'), Raise IndexError) /\
    _is_fit self' = true /\
    transform h' self' [] ∅ = Return (RFrame (mkAgg rows None)).
Proof.
  destruct (fit_raising_at_the_lookup_leaves_a_fit_instance 16
              (Grid.built_heap Samples.df_empty) Grid.built_self Samples.df_empty)
    as (h' & self' & rows & Hfit & Hflag & _ & Ht).
  - reflexivity.
  - constructor.
  - right. lia.
  - exists h', self', rows. done.
Defined.

Lemma refit_history_is_fit :
  _is_fit (run [CallFit 9; CallFit 16; CallFit 8]
             (Grid.built_heap Grid.df_two_cells, Grid.built_self)).2 = true.
Proof. vm_compute. reflexivity. Qed.



Lemma fitted_missing_id_frame :
  (Grid.fitted Samples.df_missing_id 9).1
    !! _input_df (Grid.fitted Samples.df_missing_id 9).2
  = Some Samples.fitted_missing_id.
Proof. vm_compute. reflexivity. Qed.

Lemma fitted_missing_id_agg :
  _transform_agg (Grid.fitted Samples.df_missing_id 9).1
    (Grid.fitted Samples.df_missing_id 9).2 false
  = Return (mkAgg [mkAggRow 64 64 0; mkAggRow 320 64 1] None).
Proof. vm_compute. reflexivity. Qed.

(** X8 on three records, the one of the first cell without id. *)
Lemma count_is_bounded_by_the_records_of_the_cell_witness :
  Forall (fun r : Row =>
            row_key r = agg_key (mkAggRow (W := Grid.world) 64 64 0) ->
            row_id r = None)
         (df_rows Samples.fitted_missing_id).
Proof.
  apply Forall_forall. intros r Hr. revert r Hr.
  destruct (count_is_bounded_by_the_records_of_the_cell (W := Grid.world)
              (Grid.fitted Samples.df_missing_id 9).1
              (Grid.fitted Samples.df_missing_id 9).2
              Samples.fitted_missing_id false
              (mkAgg [mkAggRow (W := Grid.world) 64 64 0;
                      mkAggRow (W := Grid.world) 320 64 1] None)
              (mkAggRow (W := Grid.world) 64 64 0)
              fitted_missing_id_frame fitted_missing_id_agg)
    as (_ & _ & Hzero).
  - left.
  - apply Hzero. reflexivity.
Defined.

(** X9 on a fitted instance, with an invalid mode passed positionally. *)
Lemma unexpected_arguments_raise_TypeError_witness :
  transform (Grid.fitted Grid.df_AAB 9).1 (Grid.fitted Grid.df_AAB 9).2
    [VStr "bogus"] ∅ = Raise TypeError /\
  transform_plot (Grid.fitted Grid.df_AAB 9).1 (Grid.fitted Grid.df_AAB 9).2
    [VStr "bogus"] ∅ = Raise TypeError.
Proof.
  apply (unexpected_arguments_raise_TypeError
           (Grid.fitted Grid.df_AAB 9).1 (Grid.fitted Grid.df_AAB 9).2
           [VStr "bogus"] ∅ fitted_AAB_is_fit).
  - reflexivity.
  - left. discriminate.
Defined.

Lemma fit_hex_label_returns :
  fit 9 (Grid.built_heap Samples.df_hex_label, Grid.built_self)
  = (((Grid.fitted Samples.df_hex_label 9).1, (Grid.fitted Samples.df_hex_label 9).2),
     Return tt).
Proof. apply fit_returns_the_fitted_state. vm_compute. reflexivity. Qed.


(** X12 on the records A, A, B: the key "64-64" holds the polygon of the
    third record. *)
Lemma polygon_cache_keeps_the_last_record_of_a_key_witness :
  _polygon_cache (Grid.fitted Grid.df_AAB 9).2 !! "64-64"
  = Some (Some (Grid.boundary (9, 0, 0))).
Proof.
  apply (polygon_cache_keeps_the_last_record_of_a_key 9
           (Grid.built_heap Grid.df_AAB) Grid.built_self Grid.df_AAB
           (Grid.fitted Grid.df_AAB 9).1 (Grid.fitted Grid.df_AAB 9).2
           Grid.fitted_AAB
           [Grid.snapped "A" (9, 0, 0); Grid.snapped "A" (9, 0, 0)]
           (Grid.snapped "B" (9, 0, 0)) []).
  - reflexivity.
  - exact fit_AAB_returns.
  - exact fitted_AAB_frame.
  - reflexivity.
  - constructor.
Defined.

Lemma Z_leb_total (a b : Z) : (a <=? b) = true \/ (b <=? a) = true.
Proof. rewrite !Z.leb_le. lia. Qed.

Lemma Z_leb_trans (a b c : Z) :
  (a <=? b) = true -> (b <=? c) = true -> (a <=? c) = true.
Proof. rewrite !Z.leb_le. lia. Qed.

Lemma Z_leb_antisym (a b : Z) : (a <=? b) = true -> (b <=? a) = true -> a = b.
Proof. rewrite !Z.leb_le. lia. Qed.

(** X13 on the records A, A, B and B, A, A. *)
Lemma aggregation_ignores_the_order_of_the_records_witness :
  exists agg agg',
    _transform_agg (Grid.built_heap Grid.df_AAB) Grid.built_self false = Return agg /\
    _transform_agg (Grid.built_heap Samples.df_BAA) Grid.built_self false = Return agg' /\
    agg_rows agg = agg_rows agg'.
Proof.
  apply (aggregation_ignores_the_order_of_the_records (W := Grid.world)
           Z_leb_total Z_leb_trans Z_leb_antisym
           (Grid.built_heap Grid.df_AAB) Grid.built_self Grid.df_AAB
           (Grid.built_heap Samples.df_BAA) Grid.built_self Samples.df_BAA false).
  - reflexivity.
  - reflexivity.
  - symmetry.
    apply (Permutation_cons_append [Grid.record "A" 10 20; Grid.record "A" 30 40]
                                   (Grid.record "B" 50 60)).
Defined.

Lemma fitted_two_cells_agg :
  _transform_agg (Grid.fitted Grid.df_two_cells 9).1
    (Grid.fitted Grid.df_two_cells 9).2 false
  = Return (mkAgg [mkAggRow 64 64 1; mkAggRow 320 64 1] None).
Proof. vm_compute. reflexivity. Qed.

(** X14 on two records in two cells. *)
Lemma aggregation_rows_are_sorted_by_key_witness :
  StronglySorted (key_le (W := Grid.world)) [(64, 64); (320, 64)].
Proof.
  apply (aggregation_rows_are_sorted_by_key (W := Grid.world) Z_leb_total Z_leb_trans
           (Grid.fitted Grid.df_two_cells 9).1 (Grid.fitted Grid.df_two_cells 9).2
           Grid.fitted_two_cells false
           (mkAgg [mkAggRow (W := Grid.world) 64 64 1;
                   mkAggRow (W := Grid.world) 320 64 1] None)
           fitted_two_cells_frame fitted_two_cells_agg).
Defined.

End more_witnesses.

Section feed_witnesses.
Import Utils.

(** X15 with a feed answering 500 and a feed of three bikes. *)
Lemma answered_feeds_are_concatenated_in_order_witness :
  exists st,
    free_bike_status_to_df Grid.network Grid.no_frame
      (Some ["https://broken.example/free_bike_status.json";
             "https://ok.example/free_bike_status.json"]) entry
    = (st, Return [Grid.bike "a"; Grid.bike "b"; Grid.bike "c"]) /\
    length (stdout st) = 1%nat.
Proof.
  destruct (answered_feeds_are_concatenated_in_order Grid.network Grid.no_frame
              ["https://broken.example/free_bike_status.json";
               "https://ok.example/free_bike_status.json"]
              [[]; [Grid.bike "a"; Grid.bike "b"; Grid.bike "c"]])
    as (st & liness & Hrun & Hout & Hlines).
  - constructor; [|constructor; [|constructor]].
    + eexists. split; reflexivity.
    + eexists. split; reflexivity.
  - exists st. split; [exact Hrun|]. rewrite Hout.
    inversion Hlines as [|f1 l1 fs ls (r1 & Hr1 & ->) Hrest]; subst.
    inversion Hrest as [|f2 l2 fs' ls' (r2 & Hr2 & ->) Hnil]; subst.
    inversion Hnil; subst.
    injection Hr1 as <-. injection Hr2 as <-. reflexivity.
Defined.

(** X16 with a good feed, then a feed answering 200 with a web page. *)
Lemma a_body_that_is_not_a_JSON_object_aborts_the_batch_witness :
  (free_bike_status_to_df Samples.network Grid.no_frame
     (Some ["https://ok.example/free_bike_status.json";
            "https://html.example/free_bike_status.json";
            "https://ok.example/free_bike_status.json"]) entry).2
  = Raise (ExternalError "Expecting value: line 1 column 1 (char 0)").
Proof.
  apply (a_body_that_is_not_a_JSON_object_aborts_the_batch
           Samples.network Grid.no_frame
           ["https://ok.example/free_bike_status.json"]
           [[Grid.bike "a"; Grid.bike "b"; Grid.bike "c"]]
           "https://html.example/free_bike_status.json"
           ["https://ok.example/free_bike_status.json"]
           (mkResponse 200 "<html></html>"
              (Raise (ExternalError "Expecting value: line 1 column 1 (char 0)")))).
  - constructor; [|constructor]. eexists. split; reflexivity.
  - reflexivity.
  - reflexivity.
Defined.

(** X17 with a good feed, then a dead host: six rows. *)
Lemma connect_error_repeats_the_previous_answer_witness :
  (free_bike_status_to_df Grid.network Grid.no_frame
     (Some ["https://ok.example/free_bike_status.json";
            "https://down.example/free_bike_status.json"]) entry).2
  = Return [Grid.bike "a"; Grid.bike "b"; Grid.bike "c";
            Grid.bike "a"; Grid.bike "b"; Grid.bike "c"].
Proof.
  apply (connect_error_repeats_the_previous_answer Grid.network Grid.no_frame
           [] [] "https://ok.example/free_bike_status.json"
           (mkResponse 200 "" (Return Grid.three_bikes))
           [Grid.bike "a"; Grid.bike "b"; Grid.bike "c"]
           "https://down.example/free_bike_status.json"
           (ExternalError "connection refused")).
  - constructor.
  - reflexivity.
  - reflexivity.
  - reflexivity.
Defined.

End feed_witnesses.
